(** * burp_client.py / burp_mcp.py: the repeat pipeline and the agent tools

    A shallow embedding of the Python sources [burp_client.py] and
    [burp_mcp.py].

    - Python [str] is [string]; the embedding covers ASCII text, on which
      [lower], [upper] and [strip] below agree with Python's.
    - Python [dict] is an insertion-ordered association list with unique
      keys ([Dict]): assignment to a present key keeps its position,
      assignment to an absent key appends.
    - Values decoded from JSON are [json]; its numbers are integers.
    - Exceptions are [exn]; fallible code returns [result].
    - The network (the Burp REST Bridge reached through [urllib], the proxy
      reached through [requests]) is a pair of oracles, variables of the
      section [Client]; every call is recorded in an event log.  An oracle
      says what the call meets: an answer, or one of the exceptions the
      code catches, or any other exception, which passes through. *)

From Stdlib Require Import String Ascii List ZArith Lia Bool DecimalString
  DecimalPos DecimalZ.
Import ListNotations.
Local Open Scope list_scope.
Local Open Scope string_scope.

(** ** Python strings *)
Module Str.

(** The characters [str.strip()] removes, within ASCII:
    TAB, LF, VT, FF, CR, FS, GS, RS, US and SPACE. *)
Definition is_space (c : ascii) : bool :=
  let n := nat_of_ascii c in
  (((9 <=? n) && (n <=? 13)) || ((28 <=? n) && (n <=? 32)))%nat.

Definition lower_char (c : ascii) : ascii :=
  let n := nat_of_ascii c in
  if ((65 <=? n) && (n <=? 90))%nat then ascii_of_nat (n + 32) else c.

Definition upper_char (c : ascii) : ascii :=
  let n := nat_of_ascii c in
  if ((97 <=? n) && (n <=? 122))%nat then ascii_of_nat (n - 32) else c.

Fixpoint map (f : ascii -> ascii) (s : string) : string :=
  match s with
  | EmptyString => EmptyString
  | String c s' => String (f c) (map f s')
  end.

(** [s.lower()], [s.upper()] *)
Definition lower (s : string) : string := map lower_char s.
Definition upper (s : string) : string := map upper_char s.

(** [s.startswith(p)] *)
Fixpoint startswith (p s : string) : bool :=
  match p, s with
  | EmptyString, _ => true
  | String a p', String b s' => Ascii.eqb a b && startswith p' s'
  | String _ _, EmptyString => false
  end.

Fixpoint drop (n : nat) (s : string) : string :=
  match n, s with
  | O, _ => s
  | S n', String _ s' => drop n' s'
  | S _, EmptyString => EmptyString
  end.

(** [s[:n]] for [n >= 0] *)
Fixpoint take (n : nat) (s : string) : string :=
  match n, s with
  | S n', String c s' => String c (take n' s')
  | _, _ => EmptyString
  end.

(** [s.find(sep)], [None] for -1 *)
Fixpoint find (sep s : string) : option nat :=
  if startswith sep s then Some O
  else match s with
       | EmptyString => None
       | String _ s' => option_map S (find sep s')
       end.

(** [sep in s] *)
Definition contains (sep s : string) : bool :=
  match find sep s with Some _ => true | None => false end.

(** [s.partition(sep)] for a non-empty [sep] *)
Definition partition (s sep : string) : string * string * string :=
  match find sep s with
  | Some i => (take i s, sep, drop (i + String.length sep) s)
  | None => (s, EmptyString, EmptyString)
  end.

(** [s.split(c)] for a one-character separator: never the empty list. *)
Fixpoint split (c : ascii) (s : string) : list string :=
  match s with
  | EmptyString => [EmptyString]
  | String a s' =>
      if Ascii.eqb a c then EmptyString :: split c s'
      else match split c s' with
           | h :: t => String a h :: t
           | [] => [String a EmptyString]
           end
  end.

(** [s.split(c, 1)] for a one-character separator. *)
Fixpoint split1 (c : ascii) (s : string) : list string :=
  match s with
  | EmptyString => [EmptyString]
  | String a s' =>
      if Ascii.eqb a c then [EmptyString; s']
      else match split1 c s' with
           | h :: t => String a h :: t
           | [] => [String a EmptyString]
           end
  end.

Fixpoint lstrip (s : string) : string :=
  match s with
  | EmptyString => EmptyString
  | String c s' => if is_space c then lstrip s' else s
  end.

Fixpoint rstrip (s : string) : string :=
  match s with
  | EmptyString => EmptyString
  | String c s' =>
      match rstrip s' with
      | EmptyString => if is_space c then EmptyString else String c EmptyString
      | r => String c r
      end
  end.

(** [s.strip()] *)
Definition strip (s : string) : string := rstrip (lstrip s).

(** [s.rstrip("/")] *)
Fixpoint rstrip_char (x : ascii) (s : string) : string :=
  match s with
  | EmptyString => EmptyString
  | String c s' =>
      match rstrip_char x s' with
      | EmptyString => if Ascii.eqb c x then EmptyString else String c EmptyString
      | r => String c r
      end
  end.

(** The scan of [s.replace(old, new)] for a non-empty [old]: left to right,
    non-overlapping; [skip] counts the characters of a match still to be
    passed over. *)
Fixpoint replace_scan (old new : string) (skip : nat) (s : string) : string :=
  match s with
  | EmptyString => EmptyString
  | String c s' =>
      match skip with
      | S k => replace_scan old new k s'
      | O => if startswith old s
             then new ++ replace_scan old new (String.length old - 1) s'
             else String c (replace_scan old new O s')
      end
  end.

Fixpoint intersperse (new s : string) : string :=
  match s with
  | EmptyString => EmptyString
  | String c s' => String c (new ++ intersperse new s')
  end.

(** [s.replace(old, new)]; an empty [old] matches before every character
    and at the end. *)
Definition replace (s old new : string) : string :=
  match old with
  | EmptyString => new ++ intersperse new s
  | String _ _ => replace_scan old new O s
  end.

(** [str(n)] / [f"{n}"] for an [int]. *)
Definition of_Z (n : Z) : string := NilZero.string_of_int (Z.to_int n).

Definition LF : string := String (ascii_of_nat 10) EmptyString.
Definition CR : string := String (ascii_of_nat 13) EmptyString.
Definition CRLF : string := CR ++ LF.

End Str.

(** ** Exceptions and results *)

Inductive exn : Type :=
| RuntimeError (msg : string)
| ValueError (msg : string)
| AttributeError
| IndexError
| RequestException (msg : string)
| UnicodeDecodeError
| JSONDecodeError
| OSError (msg : string).

Inductive result (A : Type) : Type :=
| Return (a : A)
| Raise (e : exn).
Arguments Return {A} a.
Arguments Raise {A} e.

(** ** Python dictionaries *)
Module Dict.
Section Dict.
Context {V : Type}.

Definition t := list (string * V).

Definition keys (d : t) : list string := List.map fst d.

(** [d.get(k)] *)
Fixpoint get (d : t) (k : string) : option V :=
  match d with
  | [] => None
  | (k', v) :: d' => if String.eqb k' k then Some v else get d' k
  end.

(** [k in d] *)
Definition mem (d : t) (k : string) : bool :=
  match get d k with Some _ => true | None => false end.

(** [d[k] = v] *)
Fixpoint set (d : t) (k : string) (v : V) : t :=
  match d with
  | [] => [(k, v)]
  | (k', v') :: d' =>
      if String.eqb k' k then (k', v) :: d' else (k', v') :: set d' k v
  end.

(** [del d[k]] for a present key; the dictionary itself for an absent one. *)
Fixpoint remove (d : t) (k : string) : t :=
  match d with
  | [] => []
  | (k', v') :: d' =>
      if String.eqb k' k then d' else (k', v') :: remove d' k
  end.

(** [d.update(other)]: assignment of [other]'s items in their order. *)
Definition update (d other : t) : t :=
  fold_left (fun acc kv => set acc (fst kv) (snd kv)) other d.

End Dict.
Arguments t V : clear implicits.
End Dict.

(** ** Values decoded from JSON *)

Local Unset Elimination Schemes.
Inductive json : Type :=
| JNull
| JBool (b : bool)
| JNum (n : Z)
| JStr (s : string)
| JArr (l : list json)
| JObj (d : list (string * json)).
Local Set Elimination Schemes.

(** Python truthiness: [not v] is [negb (truthy v)]. *)
Definition truthy (v : json) : bool :=
  match v with
  | JNull => false
  | JBool b => b
  | JNum n => negb (n =? 0)%Z
  | JStr s => negb (s =? "")
  | JArr l => match l with [] => false | _ :: _ => true end
  | JObj d => match d with [] => false | _ :: _ => true end
  end.

(** [v.get(k, default)]: only a dictionary has [get]. *)
Definition json_get (v : json) (k : string) (default : json) : result json :=
  match v with
  | JObj d => Return (match Dict.get d k with Some x => x | None => default end)
  | _ => Raise AttributeError
  end.

(** The receiver of a [str] method ([replace], [startswith]): any other
    decoded value has no such attribute. *)
Definition as_str (v : json) : result string :=
  match v with
  | JStr s => Return s
  | _ => Raise AttributeError
  end.

(** ** The message codec (module-level functions of burp_client.py) *)

Definition COLON : ascii := ":"%char.
Definition SPACE : ascii := " "%char.
Definition NL : ascii := ascii_of_nat 10.

(** [k, v = line.split(":", 1)] under the guard [":" in line]: the text
    before and after the first colon; [None] when the line has no colon. *)
Fixpoint split_colon (line : string) : option (string * string) :=
  match line with
  | EmptyString => None
  | String a s' =>
      if Ascii.eqb a COLON then Some (EmptyString, s')
      else match split_colon s' with
           | Some (k, v) => Some (String a k, v)
           | None => None
           end
  end.

(** The loop body of [_parse_http_request]:
    [if ":" in line: k, v = line.split(":", 1); headers[k.strip()] = v.strip()] *)
Definition parse_header_line (headers : Dict.t string) (line : string)
  : Dict.t string :=
  match split_colon line with
  | Some (k, v) => Dict.set headers (Str.strip k) (Str.strip v)
  | None => headers
  end.

(** [text.replace("\r\n", "\n").replace("\r", "\n")] *)
Definition normalize_newlines (text : string) : string :=
  Str.replace (Str.replace text Str.CRLF Str.LF) Str.CR Str.LF.

Definition parsed : Type := string * string * Dict.t string * string.

Definition _parse_http_request (text : string) : result parsed :=
  let text := normalize_newlines text in
  let '(header_part, _, body) := Str.partition text (Str.LF ++ Str.LF) in
  let lines := Str.split NL header_part in
  match lines with
  | [] => Raise IndexError
  | line0 :: rest =>
      let parts := Str.split SPACE (Str.strip line0) in
      let method := match parts with [] => "GET" | p0 :: _ => p0 end in
      let path := match parts with _ :: p1 :: _ => p1 | _ => "/" end in
      let headers := fold_left parse_header_line rest [] in
      Return (method, path, headers, Str.strip body)
  end.

(** [k.lower() == name.lower()] *)
Definition header_named (name k : string) : bool :=
  Str.lower k =? Str.lower name.

(** [_pop_header(headers, name)]: the value returned and the dictionary
    left behind. *)
Definition _pop_header (headers : Dict.t string) (name : string)
  : option string * Dict.t string :=
  match List.find (header_named name) (Dict.keys headers) with
  | Some k => (Dict.get headers k, Dict.remove headers k)
  | None => (None, headers)
  end.

(** ** The network *)

(** What the [try] block of [_get] and [_post] meets:
    - [UrlOk v]: an answer, [v] the decoded JSON document, or [JStr body]
      for a [text/plain] answer in [_get];
    - [HTTPError code body]: [urllib.error.HTTPError], [body] what
      [e.read().decode()] gives in the handler;
    - [HTTPErrorRaising code e]: [urllib.error.HTTPError] with a body on
      which [e.read().decode()] raises [e] in the handler (a body that is
      not UTF-8 raises [UnicodeDecodeError]);
    - [URLError]: [urllib.error.URLError] that is not an [HTTPError];
    - [UrlopenRaises e]: any other exception of [urlopen], of
      [resp.read()] (and of its strict [decode()] in [_post]) or of
      [json.loads]: a connection closed without an answer
      ([RemoteDisconnected], an [OSError]), a timeout while reading, a body
      that is not JSON ([JSONDecodeError]).  Neither [except] clause
      catches it. *)
Inductive urlopen_outcome : Type :=
| UrlOk (v : json)
| HTTPError (code : Z) (body : string)
| HTTPErrorRaising (code : Z) (e : exn)
| URLError
| UrlopenRaises (e : exn).

(** The keyword arguments of the call [req_lib.request(...)] in
    [BurpClient.request]. *)
Record outbound : Type := {
  ob_method : string;
  ob_url : string;
  ob_headers : Dict.t string;
  ob_data : option (list Byte.byte);
  ob_proxies : Dict.t string;
  ob_verify : bool;
  ob_allow_redirects : bool
}.

(** What [req_lib.request] does: a response whatever its status code, or
    an exception of the [requests] library, none of which is a
    [RuntimeError]. *)
Inductive requests_outcome : Type :=
| Response (status_code : Z) (headers : Dict.t string) (text : string)
| RequestsRaises (msg : string).

Inductive event : Type :=
| UrlopenGet (url : string)
| UrlopenPost (url : string) (body : json)
| RequestsRequest (r : outbound).

(** Code that talks to the network: it extends the event log and returns
    or raises. *)
Definition M (A : Type) : Type := list event -> list event * result A.

Definition ret {A} (a : A) : M A := fun log => (log, Return a).
Definition raise {A} (e : exn) : M A := fun log => (log, Raise e).
Definition bind {A B} (m : M A) (k : A -> M B) : M B :=
  fun log =>
    match m log with
    | (log', Return a) => k a log'
    | (log', Raise e) => (log', Raise e)
    end.
Definition lift {A} (r : result A) : M A := fun log => (log, r).

Notation "x <- m ;; k" := (bind m (fun x => k))
  (at level 61, m at next level, right associativity).
Notation "' p <- m ;; k" := (bind m (fun x => let p := x in k))
  (at level 61, p pattern, m at next level, right associativity).

(** [body.encode()] on ASCII text *)
Definition encode (s : string) : list Byte.byte := list_byte_of_string s.

(** A value of a query parameter: [None], a [str] or an [int]. *)
Inductive param : Type :=
| PNone
| PStr (s : string)
| PInt (n : Z).

(** [v is not None and v != ""], then [str(v)] *)
Definition param_filter (kv : string * param) : option (string * string) :=
  match snd kv with
  | PNone => None
  | PStr s => if s =? "" then None else Some (fst kv, s)
  | PInt n => Some (fst kv, Str.of_Z n)
  end.

Fixpoint filter_params (ps : list (string * param)) : list (string * string) :=
  match ps with
  | [] => []
  | kv :: ps' =>
      match param_filter kv with
      | Some x => x :: filter_params ps'
      | None => filter_params ps'
      end
  end.

Definition opt_str (o : option string) : param :=
  match o with Some s => PStr s | None => PNone end.

Record BurpClient : Type := {
  base_url : string;
  timeout : Z
}.

Definition BASE_URL : string := "http://127.0.0.1:8090".

(** [BurpClient.__init__] *)
Definition BurpClient_init (base : string) (tmo : Z) : BurpClient :=
  {| base_url := Str.rstrip_char "/" base; timeout := tmo |}.

(** The mutation spec of [repeat]: [replacements], [add_headers], [body]. *)
Record mutation : Type := {
  replacements : option (list (string * string));
  add_headers : option (Dict.t string);
  new_body : option string
}.

(** What [repeat] hands to [self.request]. *)
Record prepared : Type := {
  p_method : string;
  p_url : string;
  p_headers : Dict.t string;
  p_body : option string
}.

(** Lines 295-297 of [repeat]:
    [for old, new in replacements.items(): request_text = request_text.replace(old, new)] *)
Definition substitute (request_text : string)
           (replacements : option (list (string * string))) : string :=
  match replacements with
  | Some reps =>
      fold_left (fun t on => Str.replace t (fst on) (snd on)) reps request_text
  | None => request_text
  end.

Section Client.

(** [urllib.request.urlopen(url)] and [urllib.request.urlopen(req)] for
    the POST of a JSON body. *)
Variable urlopen_get : string -> urlopen_outcome.
Variable urlopen_post : string -> json -> urlopen_outcome.
(** [requests.request] *)
Variable requests_request : outbound -> requests_outcome.
(** Whether [import requests] and [import urllib3] succeed. *)
Variable requests_installed : bool.
(** [urllib.parse.urlencode] *)
Variable urlencode : list (string * string) -> string.
(** [str(v)] of a decoded value that is not a [str]. *)
Variable py_str : json -> string.

Definition format_value (v : json) : string :=
  match v with
  | JStr s => s
  | _ => py_str v
  end.

Definition _get (self : BurpClient) (path : string)
           (params : list (string * param)) : M json :=
  let url := base_url self ++ path in
  let url :=
    match filter_params params with
    | [] => url
    | filtered => url ++ "?" ++ urlencode filtered
    end in
  fun log =>
    let log := (log ++ [UrlopenGet url])%list in
    match urlopen_get url with
    | UrlOk v => (log, Return v)
    | HTTPError code body =>
        (log, Raise (RuntimeError ("HTTP " ++ Str.of_Z code ++ ": " ++ body)))
    | HTTPErrorRaising code e => (log, Raise e)
    | URLError =>
        (log, Raise (RuntimeError
                       ("Cannot connect to Burp REST Bridge at " ++ base_url self
                        ++ ". Is the extension loaded and Burp running?")))
    | UrlopenRaises e => (log, Raise e)
    end.

Definition _post (self : BurpClient) (path : string) (body : json) : M json :=
  let url := base_url self ++ path in
  fun log =>
    let log := (log ++ [UrlopenPost url body])%list in
    match urlopen_post url body with
    | UrlOk v => (log, Return v)
    | HTTPError code b =>
        (log, Raise (RuntimeError ("HTTP " ++ Str.of_Z code ++ ": " ++ b)))
    | HTTPErrorRaising code e => (log, Raise e)
    | URLError =>
        (log, Raise (RuntimeError
                       ("Cannot connect to Burp REST Bridge at " ++ base_url self
                        ++ ".")))
    | UrlopenRaises e => (log, Raise e)
    end.

Definition health (self : BurpClient) : M json := _get self "/health" [].

Definition docs (self : BurpClient) : M json := _get self "/" [].

Definition hosts (self : BurpClient) : M json :=
  r <- _get self "/proxy/hosts" [] ;;
  lift (json_get r "hosts" (JArr [])).

Definition max_body_param (max_body : Z) : param :=
  if (max_body >? 0)%Z then PInt max_body else PNone.

Definition history (self : BurpClient)
           (host method status search search_in tool ext_exclude mime order
            : option string)
           (limit offset : Z) (fields : option string) (max_body : Z)
           (mcp_only : bool) : M json :=
  _get self "/proxy/history"
    [ ("host", opt_str host); ("method", opt_str method);
      ("status", opt_str status); ("search", opt_str search);
      ("search_in", opt_str search_in); ("tool", opt_str tool);
      ("ext_exclude", opt_str ext_exclude); ("mime", opt_str mime);
      ("order", opt_str order);
      ("limit", PInt limit); ("offset", PInt offset);
      ("fields", opt_str fields);
      ("max_body", max_body_param max_body);
      ("mcp", if mcp_only then PStr "true" else PNone) ].

Definition get (self : BurpClient) (item_id : Z) (max_body : Z) : M json :=
  _get self ("/proxy/history/" ++ Str.of_Z item_id)
    [ ("max_body", max_body_param max_body) ].

Definition repeater_latest (self : BurpClient) (max_body : Z) : M json :=
  _get self "/repeater/latest" [ ("max_body", max_body_param max_body) ].

Definition send_to_repeater (self : BurpClient)
           (history_id : option Z) (request_b64 host : option string)
           (port : Z) (https : bool) (tab_name : option string) : M json :=
  body <- (match history_id with
           | Some id => ret [("history_id", JNum id)]
           | None =>
               match request_b64 with
               | Some (String c r) =>
                   ret [ ("request", JStr (String c r));
                         ("host", JStr (match host with
                                        | Some (String a h) => String a h
                                        | _ => ""
                                        end));
                         ("port", JNum port);
                         ("https", JBool https) ]
               | _ => raise (ValueError "Provide either history_id or request_b64")
               end
           end) ;;
  let body :=
    match tab_name with
    | Some (String c r) => Dict.set body "tab_name" (JStr (String c r))
    | _ => body
    end in
  _post self "/repeater" (JObj body).

Definition scope (self : BurpClient) (url : string) : M json :=
  _get self "/scope" [ ("url", PStr url) ].

(** Lines 254-257 of [request]: the body of the response, cut at
    [max_response_body] characters. *)
Definition truncate_body (resp_body : string) (max_response_body : Z) : string :=
  if ((max_response_body >? 0)
      && (Z.of_nat (String.length resp_body) >? max_response_body))%Z
  then Str.take (Z.to_nat max_response_body) resp_body
       ++ Str.LF ++ "[... "
       ++ Str.of_Z (Z.of_nat (String.length resp_body) - max_response_body)
       ++ " chars omitted]"
  else resp_body.

(** Lines 242-244 of [request]. *)
Definition send_headers_of (headers : option (Dict.t string)) : Dict.t string :=
  let send_headers :=
    match headers with
    | Some (kv :: h) => kv :: h
    | _ => []
    end in
  if Dict.mem send_headers "X-Burp-MCP" then send_headers
  else Dict.set send_headers "X-Burp-MCP" "request".

(** Lines 237-252 of [request]: the arguments of [req_lib.request]. *)
Definition request_call (method url : string)
           (headers : option (Dict.t string)) (body : option string)
           (proxy_port : Z) : outbound :=
  let proxies :=
    [ ("http", "http://127.0.0.1:" ++ Str.of_Z proxy_port);
      ("https", "http://127.0.0.1:" ++ Str.of_Z proxy_port) ] in
  let send_headers := send_headers_of headers in
  {| ob_method := Str.upper method;
     ob_url := url;
     ob_headers := send_headers;
     ob_data := option_map encode body;
     ob_proxies := proxies;
     ob_verify := false;
     ob_allow_redirects := false |}.

Definition request (self : BurpClient) (method url : string)
           (headers : option (Dict.t string)) (body : option string)
           (proxy_port : Z) (max_response_body : Z) : M json :=
  if negb requests_installed then raise (RuntimeError "pip install requests")
  else
    let call := request_call method url headers body proxy_port in
    fun log =>
      let log := (log ++ [RequestsRequest call])%list in
      match requests_request call with
      | RequestsRaises msg => (log, Raise (RequestException msg))
      | Response status_code resp_headers text =>
          let resp_body := truncate_body text max_response_body in
          (log, Return (JObj
             [ ("status_code", JNum status_code);
               ("headers", JObj (List.map (fun kv => (fst kv, JStr (snd kv)))
                                          resp_headers));
               ("body", JStr resp_body);
               ("url", JStr url);
               ("method", JStr (Str.upper method)) ]))
      end.

(** Lines 294-318 of [repeat]: from the fetched item and its non-empty
    [request_text] to the arguments of [self.request]. *)
Definition prepare (item : json) (request_text : json) (item_id : Z)
           (spec : mutation) : result prepared :=
  match as_str request_text with
  | Raise e => Raise e
  | Return request_text =>
  let request_text := substitute request_text (replacements spec) in
  match _parse_http_request request_text with
  | Raise e => Raise e
  | Return (method, path, headers, req_body) =>
  match json_get item "url" (JStr "") with
  | Raise e => Raise e
  | Return item_url =>
  match as_str item_url with
  | Raise e => Raise e
  | Return item_url =>
  let scheme := if Str.startswith "https" item_url then "https" else "http" in
  let '(popped, headers) := _pop_header headers "host" in
  match (match popped with
         | Some (String c h) => Return (String c h)
         | _ =>
             match json_get item "host" (JStr "") with
             | Return v => Return (format_value v)
             | Raise e => Raise e
             end
         end) with
  | Raise e => Raise e
  | Return host =>
  let url := scheme ++ "://" ++ host ++ path in
  let headers :=
    fold_left (fun h auto => snd (_pop_header h auto))
              ["content-length"; "transfer-encoding"] headers in
  let headers :=
    match add_headers spec with
    | Some (kv :: a) => Dict.update headers (kv :: a)
    | _ => headers
    end in
  let req_body :=
    match new_body spec with
    | Some b => b
    | None => req_body
    end in
  let headers := Dict.set headers "X-Burp-MCP" ("repeat:" ++ Str.of_Z item_id) in
  Return {| p_method := method;
            p_url := url;
            p_headers := headers;
            p_body := match req_body with
                      | EmptyString => None
                      | String _ _ => Some req_body
                      end |}
  end end end end end.

Definition repeat (self : BurpClient) (item_id : Z) (spec : mutation)
           (proxy_port : Z) (max_response_body : Z) : M json :=
  item <- get self item_id 0 ;;
  request_text <- lift (json_get item "request_text" (JStr "")) ;;
  if negb (truthy request_text)
  then raise (RuntimeError ("No request text for item " ++ Str.of_Z item_id))
  else
    p <- lift (prepare item request_text item_id spec) ;;
    result <- request self (p_method p) (p_url p) (Some (p_headers p))
                      (p_body p) proxy_port max_response_body ;;
    match result with
    | JObj d => ret (JObj (Dict.set d "item_id" (JNum item_id)))
    | _ => ret result
    end.

(** ** The agent tools (burp_mcp.py) *)

(** [_client = BurpClient()] *)
Definition _client : BurpClient := BurpClient_init BASE_URL 10.

Definition _DEFAULT_EXT_EXCLUDE : string :=
  "js,css,png,gif,ico,woff,woff2,ttf,eot,svg,map,jpg,jpeg,webp,mp4,mp3,pdf".

(** [_safe(fn)]: only [RuntimeError] is caught. *)
Definition _safe (fn : M json) : M json :=
  fun log =>
    match fn log with
    | (log', Raise (RuntimeError msg)) =>
        (log', Return (JObj [("error", JStr msg)]))
    | r => r
    end.

Definition burp_health : M json := _safe (health _client).

Definition burp_hosts : M json := _safe (hosts _client).

Definition burp_search (host method status search search_in tool ext_exclude
                        mime order : option string)
           (limit offset : Z) (mcp_only : bool) : M json :=
  _safe (history _client host method status search search_in tool
           (match ext_exclude with
            | Some (String c e) => Some (String c e)
            | _ => None
            end)
           mime order limit offset None 0 mcp_only).

Definition burp_get_item (item_id : Z) (max_body : Z) : M json :=
  _safe (get _client item_id max_body).

Definition burp_repeater_latest (max_body : Z) : M json :=
  _safe (repeater_latest _client max_body).

Definition burp_send_to_repeater (history_id : Z) (tab_name : option string)
  : M json :=
  _safe (send_to_repeater _client (Some history_id) None None 80 false tab_name).

Definition burp_repeat (item_id : Z) (spec : mutation)
           (proxy_port : Z) (max_response_body : Z) : M json :=
  _safe (repeat _client item_id spec proxy_port max_response_body).

Definition burp_request (method url : string)
           (headers : option (Dict.t string)) (body : option string)
           (proxy_port : Z) (max_response_body : Z) : M json :=
  _safe (request _client method url headers body proxy_port max_response_body).

Definition burp_scope (url : string) : M json :=
  _safe (scope _client url).

(** The registered tools ([@mcp.tool()]) with their arguments. *)
Inductive tool_call : Type :=
| Call_burp_health
| Call_burp_hosts
| Call_burp_search (host method status search search_in tool ext_exclude
                    mime order : option string)
                   (limit offset : Z) (mcp_only : bool)
| Call_burp_get_item (item_id : Z) (max_body : Z)
| Call_burp_repeater_latest (max_body : Z)
| Call_burp_send_to_repeater (history_id : Z) (tab_name : option string)
| Call_burp_repeat (item_id : Z) (spec : mutation)
                   (proxy_port : Z) (max_response_body : Z)
| Call_burp_request (method url : string)
                    (headers : option (Dict.t string)) (body : option string)
                    (proxy_port : Z) (max_response_body : Z)
| Call_burp_scope (url : string).

Definition run_tool (c : tool_call) : M json :=
  match c with
  | Call_burp_health => burp_health
  | Call_burp_hosts => burp_hosts
  | Call_burp_search host method status search search_in tool ext_exclude
                     mime order limit offset mcp_only =>
      burp_search host method status search search_in tool ext_exclude
                  mime order limit offset mcp_only
  | Call_burp_get_item item_id max_body => burp_get_item item_id max_body
  | Call_burp_repeater_latest max_body => burp_repeater_latest max_body
  | Call_burp_send_to_repeater history_id tab_name =>
      burp_send_to_repeater history_id tab_name
  | Call_burp_repeat item_id spec proxy_port max_response_body =>
      burp_repeat item_id spec proxy_port max_response_body
  | Call_burp_request method url headers body proxy_port max_response_body =>
      burp_request method url headers body proxy_port max_response_body
  | Call_burp_scope url => burp_scope url
  end.

End Client.

(** ** Vocabulary of the properties *)

(** The header set after the pops of lines 303 and 307-308. *)
Definition stripped (hs : Dict.t string) : Dict.t string :=
  snd (_pop_header (snd (_pop_header (snd (_pop_header hs "host"))
                                     "content-length"))
                   "transfer-encoding").

(** The header set after line 311. *)
Definition overridden (h : Dict.t string) (spec : mutation) : Dict.t string :=
  match add_headers spec with
  | Some a => Dict.update h a
  | None => h
  end.

Definition field (d : list (string * json)) (k : string) : json :=
  match Dict.get d k with Some x => x | None => JStr "" end.

(** The names [repeat] pops before it applies the overrides. *)
Definition popped_names : list string :=
  ["host"; "content-length"; "transfer-encoding"].

(** The address [get(item_id, max_body=0)] asks for: no [max_body]
    parameter, hence no truncation. *)
Definition item_url (self : BurpClient) (item_id : Z) : string :=
  base_url self ++ "/proxy/history/" ++ Str.of_Z item_id.

(** [f"HTTP {e.code}: {e.read().decode()}"] *)
Definition http_error_msg (code : Z) (body : string) : string :=
  "HTTP " ++ Str.of_Z code ++ ": " ++ body.

Definition no_text_msg (item_id : Z) : string :=
  "No request text for item " ++ Str.of_Z item_id.





Definition is_burp_request (c : tool_call) : bool :=
  match c with
  | Call_burp_request _ _ _ _ _ _ => true
  | _ => false
  end.

(** [c] does not occur in [s]. *)
Fixpoint free (c : ascii) (s : string) : Prop :=
  match s with
  | EmptyString => True
  | String a s' => a <> c /\ free c s'
  end.

Definition CRc : ascii := ascii_of_nat 13.

Definition BLANK : string := Str.LF ++ Str.LF.

(** The text is empty or begins with a character that is not white space. *)
Definition no_leading_space (s : string) : Prop :=
  match s with
  | EmptyString => True
  | String c _ => Str.is_space c = false
  end.

(** A name and a value as [_parse_http_request] stores them. *)
Definition good_entry (kv : string * string) : Prop :=
  (free COLON (fst kv) /\ free NL (fst kv) /\ free CRc (fst kv)
   /\ Str.strip (fst kv) = fst kv)
  /\ (free NL (snd kv) /\ free CRc (snd kv) /\ Str.strip (snd kv) = snd kv).

Definition good_token (s : string) : Prop :=
  free SPACE s /\ free NL s /\ free CRc s.

(** ** The serializer of the specification *)

(** The lines [ls], each followed by the line end [eol]. *)
Fixpoint terminated (eol : string) (ls : list string) : string :=
  match ls with
  | [] => ""
  | l :: ls' => l ++ eol ++ terminated eol ls'
  end.

Definition request_line (method path : string) : string :=
  method ++ " " ++ path ++ " HTTP/1.1".

Definition header_line (kv : string * string) : string :=
  fst kv ++ ": " ++ snd kv.

(** Modelled from the spec: [build], the inverse of [parse], which the
    repository does not have (the [requests] library serializes the
    outbound request).  Section 4.1: it re-emits "a standards-conformant
    request line, headers in their stored order, a blank-line separator,
    then the body". *)
Definition build (r : parsed) : string :=
  let '(method, path, headers, body) := r in
  terminated Str.CRLF (request_line method path :: List.map header_line headers)
  ++ Str.CRLF ++ body.

(** ** Sample data *)

Definition text_of_lines (l : list string) : string := String.concat Str.LF l.

Definition no_py_str (v : json) : string := "".
Definition no_urlencode (ps : list (string * string)) : string := "".

(** The scenario of the specification: item 7, a login request. *)
Definition login_text : string :=
  text_of_lines
    [ "POST /login HTTP/1.1"; "Host: a.test"; "Content-Length: 9";
      "content-type: text/plain"; ""; "user=bob" ].

Definition login_item : json :=
  JObj [ ("id", JNum 7); ("url", JStr "https://a.test/login");
         ("host", JStr "b.test"); ("request_text", JStr login_text) ].

Definition no_mutation : mutation :=
  {| replacements := None; add_headers := None; new_body := None |}.

Definition override_content_type : mutation :=
  {| replacements := None;
     add_headers := Some [("Content-Type", "application/json")];
     new_body := None |}.

Definition override_content_length : mutation :=
  {| replacements := None;
     add_headers := Some [("Content-Length", "3")];
     new_body := None |}.

Definition two_casings_text : string :=
  text_of_lines
    [ "POST /login HTTP/1.1"; "Host: a.test"; "Content-Length: 9";
      "content-length: 9"; ""; "user=bob" ].

(** The store holds item 7, the login request, and item 8, which has no
    request text; the proxy answers every request with 25 characters. *)
Definition sample_store (url : string) : urlopen_outcome :=
  if url =? "http://127.0.0.1:8090/proxy/history/7" then UrlOk login_item
  else if url =? "http://127.0.0.1:8090/proxy/history/8"
       then UrlOk (JObj [("id", JNum 8); ("url", JStr "http://a.test/")])
       else HTTPError 404 "Not found".

Definition sample_post (url : string) (body : json) : urlopen_outcome :=
  UrlOk (JObj [("status", JStr "ok")]).

Definition sample_proxy (r : outbound) : requests_outcome :=
  Response 200 [("Content-Type", "text/plain")] "abcdefghijklmnopqrstuvwxy".


Definition sample_repeat (id : Z) (spec : mutation) (max : Z)
  : list event * result json :=
  repeat sample_store sample_proxy true no_urlencode no_py_str
         _client id spec 8080 max [].

Definition override_marker : mutation :=
  {| replacements := None;
     add_headers := Some [("X-Burp-MCP", "mine")];
     new_body := None |}.

Definition empty_body : mutation :=
  {| replacements := None; add_headers := None; new_body := Some "" |}.

Definition override_host : mutation :=
  {| replacements := None;
     add_headers := Some [("Host", "c.test")];
     new_body := None |}.

Definition empty_host_text : string :=
  text_of_lines [ "GET /login HTTP/1.1"; "Host:"; "Accept: */*"; ""; "" ].

(** The request [repeat] transmits for item 7 when the spec leaves the
    headers and the body alone. *)
Definition login_call : outbound :=
  request_call "POST" "https://a.test/login"
               (Some [ ("content-type", "text/plain");
                       ("X-Burp-MCP", "repeat:7") ])
               (Some "user=bob") 8080.

Definition login_call_no_body : outbound :=
  request_call "POST" "https://a.test/login"
               (Some [ ("content-type", "text/plain");
                       ("X-Burp-MCP", "repeat:7") ])
               None 8080.

Definition down_store (url : string) : urlopen_outcome := URLError.

(** ** Convenience functions (burp_client.py, module level) *)

(** [v == n] for an [int] literal [n]; [True] and [False] compare as 1
    and 0. *)
Definition json_eq_int (v : json) (n : Z) : bool :=
  match v with
  | JNum m => (m =? n)%Z
  | JBool b => ((if b then 1 else 0) =? n)%Z
  | _ => false
  end.

Section Convenience.
Variable py_str : json -> string.

(** [f"{v}"] of a decoded value: a [str] as it is, an [int] in decimal. *)
Definition format_json (v : json) : string :=
  match v with
  | JStr s => s
  | JNum n => Str.of_Z n
  | _ => py_str v
  end.

(** [_build_url(item)]; [item.get] raises [AttributeError] on a value that
    is not a dictionary. *)
Definition _build_url (item : json) : result string :=
  match item with
  | JObj d =>
      let get k default :=
        match Dict.get d k with Some x => x | None => default end in
      let https := get "https" JNull in
      let scheme := if truthy https then "https" else "http" in
      let host := get "host" (JStr "") in
      let port := get "port" (JNum 0) in
      let path := get "path" (JStr "") in
      let default_port :=
        (truthy https && json_eq_int port 443)
        || (negb (truthy https) && json_eq_int port 80) in
      let port_str := if default_port then "" else ":" ++ format_json port in
      Return (scheme ++ "://" ++ format_json host ++ port_str
              ++ format_json path)
  | _ => Raise AttributeError
  end.

End Convenience.

(** ** Vocabulary of the further properties *)

(** [n] slashes. *)
Fixpoint slashes (n : nat) : string :=
  match n with
  | O => ""
  | S n' => String "/" (slashes n')
  end.

Definition is_burp_repeat (c : tool_call) : bool :=
  match c with
  | Call_burp_repeat _ _ _ _ => true
  | _ => false
  end.

(** The [proxy_port] argument of a call of [burp_repeat] or
    [burp_request]. *)
Definition tool_proxy_port (c : tool_call) : option Z :=
  match c with
  | Call_burp_repeat _ _ proxy_port _ => Some proxy_port
  | Call_burp_request _ _ _ _ proxy_port _ => Some proxy_port
  | _ => None
  end.

(** An event of the store, at an address under [base]. *)
Definition store_event_under (base : string) (ev : event) : Prop :=
  match ev with
  | UrlopenGet url => Str.startswith base url = true
  | UrlopenPost url _ => Str.startswith base url = true
  | RequestsRequest _ => False
  end.

(** The address [_get] asks: the base address and the path, then [?] and
    the encoded parameters when some are left. *)
Definition query_url (urlencode : list (string * string) -> string)
           (self : BurpClient) (path : string) (ps : list (string * string))
  : string :=
  match ps with
  | [] => base_url self ++ path
  | _ :: _ => (base_url self ++ path) ++ "?" ++ urlencode ps
  end.

(** A store that lists one host. *)
Definition hosts_store (url : string) : urlopen_outcome :=
  UrlOk (JObj [("hosts", JArr [JStr "a.test"])]).

(** A store that answers with a list. *)
Definition hosts_list_store (url : string) : urlopen_outcome :=
  UrlOk (JArr [JStr "a.test"]).

(** ** [BurpClient.repeater_history] *)

Section RepeaterHistory.
Variable urlopen_get : string -> urlopen_outcome.
Variable urlencode : list (string * string) -> string.

Definition repeater_history (self : BurpClient)
           (host method status search search_in : option string)
           (limit offset : Z) (fields : option string) : M json :=
  _get urlopen_get urlencode self "/repeater/history"
    [ ("host", opt_str host); ("method", opt_str method);
      ("status", opt_str status); ("search", opt_str search);
      ("search_in", opt_str search_in);
      ("limit", PInt limit); ("offset", PInt offset);
      ("fields", opt_str fields) ].

End RepeaterHistory.


(** A store that answers every call with the same document. *)
Definition constant_store (v : json) (url : string) : urlopen_outcome := UrlOk v.

(** Item 12: a captured request that already carries the marker. *)
Definition marked_text : string :=
  text_of_lines
    [ "GET /x HTTP/1.1"; "Host: a.test"; "X-Burp-MCP: old"; ""; "" ].

Definition marked_store (url : string) : urlopen_outcome :=
  if url =? "http://127.0.0.1:8090/proxy/history/12"
  then UrlOk (JObj [ ("id", JNum 12); ("url", JStr "http://a.test/x");
                     ("host", JStr "a.test");
                     ("request_text", JStr marked_text) ])
  else HTTPError 404 "Not found".

Definition override_marker_lowercase : mutation :=
  {| replacements := None;
     add_headers := Some [("x-burp-mcp", "mine")];
     new_body := None |}.



(** ** Well-formed request texts *)

(** The texts of the round-trip property, after the message format of
    HTTP/1.1: a request line [method SP target SP version], header lines
    [name ":" OWS value OWS] with [OWS] a run of spaces and tabs, an empty
    line, the body; every line ended by CRLF, or by a bare LF.  A text is
    given by its parts, so that what it says is read off the parts and not
    through [_parse_http_request]. *)

Definition TAB : ascii := ascii_of_nat 9.

(** A run of spaces and tabs. *)
Fixpoint padding (s : string) : Prop :=
  match s with
  | EmptyString => True
  | String c s' => (c = SPACE \/ c = TAB) /\ padding s'
  end.

(** A header line as it is written: the name, a colon, the value between
    two runs of spaces and tabs. *)
Record header_text : Type :=
  { h_name : string; h_lead : string; h_value : string; h_trail : string }.

(** A request as it is written: the three parts of the request line, the
    header lines, the body. *)
Record request_text : Type :=
  { t_method : string; t_path : string; t_version : string;
    t_headers : list header_text; t_body : string }.

Definition header_text_line (h : header_text) : string :=
  h_name h ++ ":" ++ h_lead h ++ h_value h ++ h_trail h.

Definition request_text_line (t : request_text) : string :=
  t_method t ++ " " ++ t_path t ++ " " ++ t_version t.

(** The text of a request, its lines ended by [eol]: the request line, the
    header lines, an empty line, the body. *)
Definition raw_text (eol : string) (t : request_text) : string :=
  terminated eol (request_text_line t :: List.map header_text_line (t_headers t))
  ++ eol ++ t_body t.

(** The name holds no colon, the name and the value hold no line end and
    no surrounding white space; the paddings are runs of spaces and tabs. *)
Definition well_formed_header (h : header_text) : Prop :=
  good_entry (h_name h, h_value h) /\ padding (h_lead h) /\ padding (h_trail h).

(** The method is not empty and begins with no white space; the method
    and the path hold no space and no line end; the version is not empty,
    holds no line end and ends with no white space; the body holds no
    carriage return. *)
Definition well_formed (t : request_text) : Prop :=
  (t_method t <> "" /\ good_token (t_method t) /\ no_leading_space (t_method t))
  /\ good_token (t_path t)
  /\ (t_version t <> "" /\ free NL (t_version t) /\ free CRc (t_version t)
      /\ Str.rstrip (t_version t) = t_version t)
  /\ Forall well_formed_header (t_headers t)
  /\ free CRc (t_body t).

(** What a request text says: the method, the path, the header names and
    values in their order, the body without surrounding white space. *)
Definition said (t : request_text) : parsed :=
  (t_method t, t_path t,
   List.map (fun h => (h_name h, h_value h)) (t_headers t),
   Str.strip (t_body t)).

(** The same request in the writing of [build]. *)
Definition canonical_header (h : header_text) : header_text :=
  {| h_name := h_name h; h_lead := " "; h_value := h_value h; h_trail := "" |}.

Definition canonical (t : request_text) : request_text :=
  {| t_method := t_method t; t_path := t_path t; t_version := "HTTP/1.1";
     t_headers := List.map canonical_header (t_headers t);
     t_body := Str.strip (t_body t) |}.

(** A request with two [Accept] lines. *)
Definition two_accepts : request_text :=
  {| t_method := "GET"; t_path := "/"; t_version := "HTTP/1.1";
     t_headers :=
       [ {| h_name := "Accept"; h_lead := " "; h_value := "text/html";
            h_trail := "" |};
         {| h_name := "Accept"; h_lead := " "; h_value := "application/json";
            h_trail := "" |} ];
     t_body := "" |}.

(** A login request with padded header values, a line break after the
    body and the version HTTP/1.0. *)
Definition padded_login : request_text :=
  {| t_method := "POST"; t_path := "/login"; t_version := "HTTP/1.0";
     t_headers :=
       [ {| h_name := "Host"; h_lead := "   "; h_value := "a.test";
            h_trail := " " |};
         {| h_name := "Content-Type"; h_lead := "";
            h_value := "text/plain; charset=utf-8"; h_trail := "" |} ];
     t_body := "user=bob" ++ Str.LF |}.

Example replace_empty_old : Str.replace "abc" "" "-" = "-a-b-c-".
Proof. reflexivity. Qed.

Example replace_overlap : Str.replace "aaaa" "aa" "b" = "bb".
Proof. reflexivity. Qed.

Example split_trailing : Str.split " " "a  b " = ["a"; ""; "b"; ""].
Proof. reflexivity. Qed.

Example of_Z_neg : Str.of_Z (-15) = "-15".
Proof. reflexivity. Qed.

(** ** Facts about dictionaries *)

Section DictFacts.
Context {V : Type}.
Implicit Types (d o : Dict.t V) (k : string) (v : V).

Lemma get_Some_In_keys d k v : Dict.get d k = Some v -> In k (Dict.keys d).
Proof.
  induction d as [|[k' v'] d IH]; simpl; [discriminate|].
  destruct (String.eqb_spec k' k); auto.
Qed.

Lemma get_None_not_In d k : Dict.get d k = None -> ~ In k (Dict.keys d).
Proof.
  induction d as [|[k' v'] d IH]; simpl; [tauto|].
  destruct (String.eqb_spec k' k); [discriminate|].
  intros H [E|I]; [congruence|]. exact (IH H I).
Qed.

Lemma In_keys_get d k : In k (Dict.keys d) -> exists v, Dict.get d k = Some v.
Proof.
  intros I. destruct (Dict.get d k) eqn:E; [eauto|].
  destruct (get_None_not_In _ _ E I).
Qed.

Lemma get_set_same d k v : Dict.get (Dict.set d k v) k = Some v.
Proof.
  induction d as [|[k' v'] d IH]; simpl.
  - now rewrite String.eqb_refl.
  - destruct (String.eqb_spec k' k) as [E|N]; simpl.
    + subst. now rewrite String.eqb_refl.
    + destruct (String.eqb_spec k' k); [contradiction|exact IH].
Qed.

Lemma get_set_other d k k' v :
  k' <> k -> Dict.get (Dict.set d k v) k' = Dict.get d k'.
Proof.
  intros N. induction d as [|[k0 v0] d IH]; simpl.
  - destruct (String.eqb_spec k k'); [congruence|reflexivity].
  - destruct (String.eqb_spec k0 k) as [E|N0]; simpl.
    + subst. destruct (String.eqb_spec k k'); [congruence|reflexivity].
    + destruct (String.eqb_spec k0 k'); [reflexivity|exact IH].
Qed.

Lemma keys_set_present d k v :
  In k (Dict.keys d) -> Dict.keys (Dict.set d k v) = Dict.keys d.
Proof.
  induction d as [|[k' v'] d IH]; simpl; [tauto|].
  intros I. destruct (String.eqb_spec k' k) as [E|N]; simpl; [reflexivity|].
  f_equal. apply IH. destruct I; [contradiction|assumption].
Qed.

Lemma keys_set_absent d k v :
  ~ In k (Dict.keys d) -> Dict.keys (Dict.set d k v) = (Dict.keys d ++ [k])%list.
Proof.
  induction d as [|[k' v'] d IH]; simpl; [reflexivity|].
  intros N. destruct (String.eqb_spec k' k) as [E|N']; simpl; [tauto|].
  f_equal. apply IH. tauto.
Qed.

Lemma keys_set d k v :
  exists extra, Dict.keys (Dict.set d k v) = (Dict.keys d ++ extra)%list
                /\ forall x, In x extra -> x = k /\ ~ In k (Dict.keys d).
Proof.
  destruct (in_dec string_dec k (Dict.keys d)) as [I|N].
  - exists []. rewrite keys_set_present, app_nil_r by assumption.
    split; [reflexivity|]. intros x [].
  - exists [k]. rewrite keys_set_absent by assumption.
    split; [reflexivity|]. intros x [E|[]]. auto.
Qed.

Lemma In_keys_set d k v x :
  In x (Dict.keys (Dict.set d k v)) <-> x = k \/ In x (Dict.keys d).
Proof.
  destruct (in_dec string_dec k (Dict.keys d)) as [I|N].
  - rewrite keys_set_present by assumption. split; [tauto|].
    intros [E|H]; [now subst|assumption].
  - rewrite keys_set_absent by assumption. rewrite in_app_iff. simpl.
    split; [intros [H|[E|[]]]; auto|intros [E|H]; auto].
Qed.

Lemma NoDup_keys_set d k v :
  NoDup (Dict.keys d) -> NoDup (Dict.keys (Dict.set d k v)).
Proof.
  intros ND. destruct (in_dec string_dec k (Dict.keys d)) as [I|N].
  - now rewrite keys_set_present.
  - rewrite keys_set_absent by assumption.
    apply NoDup_app; [assumption|repeat constructor; simpl; tauto|].
    intros x Hx [E|[]]. subst. contradiction.
Qed.

Lemma In_keys_remove d k x :
  In x (Dict.keys (Dict.remove d k)) -> In x (Dict.keys d).
Proof.
  induction d as [|[k' v'] d IH]; simpl; [tauto|].
  destruct (String.eqb_spec k' k); simpl; [tauto|].
  intros [E|I]; auto.
Qed.

Lemma NoDup_keys_remove d k :
  NoDup (Dict.keys d) -> NoDup (Dict.keys (Dict.remove d k)).
Proof.
  induction d as [|[k' v'] d IH]; simpl; [trivial|].
  intros ND. inversion ND as [|? ? N ND']; subst.
  destruct (String.eqb_spec k' k); simpl; [assumption|].
  constructor; [|auto]. intros I. apply N. eapply In_keys_remove; eauto.
Qed.

Lemma not_In_keys_remove d k :
  NoDup (Dict.keys d) -> ~ In k (Dict.keys (Dict.remove d k)).
Proof.
  induction d as [|[k' v'] d IH]; simpl; [tauto|].
  intros ND. inversion ND as [|? ? N ND']; subst.
  destruct (String.eqb_spec k' k) as [E|N']; simpl.
  - now subst.
  - intros [E|I]; [contradiction|]. exact (IH ND' I).
Qed.

Lemma In_keys_remove_other d k x :
  x <> k -> In x (Dict.keys d) -> In x (Dict.keys (Dict.remove d k)).
Proof.
  intros N. induction d as [|[k' v'] d IH]; simpl; [tauto|].
  destruct (String.eqb_spec k' k) as [E|N']; simpl.
  - intros [E'|I]; [congruence|assumption].
  - intros [E'|I]; auto.
Qed.

Lemma update_cons d kv o :
  Dict.update d (kv :: o) = Dict.update (Dict.set d (fst kv) (snd kv)) o.
Proof. reflexivity. Qed.

Lemma In_keys_update d o x :
  In x (Dict.keys (Dict.update d o)) <-> In x (Dict.keys d) \/ In x (Dict.keys o).
Proof.
  revert d. induction o as [|[k v] o IH]; intros d.
  - simpl. tauto.
  - rewrite update_cons, IH, In_keys_set. simpl. intuition (subst; auto).
Qed.

Lemma NoDup_keys_update d o :
  NoDup (Dict.keys d) -> NoDup (Dict.keys (Dict.update d o)).
Proof.
  revert d. induction o as [|[k v] o IH]; intros d ND; [assumption|].
  rewrite update_cons. apply IH, NoDup_keys_set, ND.
Qed.

Lemma keys_update d o :
  exists extra, Dict.keys (Dict.update d o) = (Dict.keys d ++ extra)%list
                /\ forall x, In x extra -> In x (Dict.keys o) /\ ~ In x (Dict.keys d).
Proof.
  revert d. induction o as [|[k v] o IH]; intros d.
  - exists []. simpl. rewrite app_nil_r. split; [reflexivity|]. intros x [].
  - rewrite update_cons.
    destruct (IH (Dict.set d k v)) as (e2 & E2 & H2).
    destruct (keys_set d k v) as (e1 & E1 & H1).
    exists (e1 ++ e2)%list. simpl fst in *. simpl snd in *.
    rewrite E2, E1, app_assoc. split; [reflexivity|].
    intros x Hx. apply in_app_or in Hx. destruct Hx as [Hx|Hx].
    + destruct (H1 x Hx) as [-> N]. simpl. auto.
    + destruct (H2 x Hx) as [I N]. simpl. split; [auto|].
      intros I'. apply N. apply In_keys_set. auto.
Qed.

Lemma get_update_not_In d o k :
  ~ In k (Dict.keys o) -> Dict.get (Dict.update d o) k = Dict.get d k.
Proof.
  revert d. induction o as [|[k' v'] o IH]; intros d N; [reflexivity|].
  rewrite update_cons, IH by (simpl in N; tauto).
  apply get_set_other. simpl in N. intros E. apply N. auto.
Qed.

Lemma get_update_In d o k v :
  NoDup (Dict.keys o) -> Dict.get o k = Some v ->
  Dict.get (Dict.update d o) k = Some v.
Proof.
  revert d. induction o as [|[k' v'] o IH]; intros d ND G; [discriminate|].
  rewrite update_cons. simpl in *. inversion ND as [|? ? N ND']; subst.
  destruct (String.eqb_spec k' k) as [E|N'].
  - subst. injection G as ->. rewrite get_update_not_In by assumption.
    apply get_set_same.
  - auto.
Qed.

End DictFacts.

(** ** Facts about the codec *)

Lemma contains_colon_cons a s :
  Str.contains ":" (String a s)
  = if Ascii.eqb a COLON then true else Str.contains ":" s.
Proof.
  unfold Str.contains. cbn [Str.find Str.startswith].
  rewrite (Ascii.eqb_sym a COLON). unfold COLON.
  destruct (Ascii.eqb ":" a); cbn [andb]; [reflexivity|].
  destruct (Str.find ":" s); reflexivity.
Qed.

(** [split_colon] is the guard [":" in line] together with
    [line.split(":", 1)]. *)
Lemma split_colon_spec line :
  split_colon line
  = if Str.contains ":" line
    then match Str.split1 COLON line with
         | [k; v] => Some (k, v)
         | _ => None
         end
    else None.
Proof.
  induction line as [|a s IH]; [reflexivity|].
  rewrite contains_colon_cons. cbn [split_colon Str.split1].
  destruct (Ascii.eqb a COLON); [reflexivity|].
  rewrite IH. destruct (Str.contains ":" s).
  - destruct (Str.split1 COLON s) as [|h [|v [|x t]]]; reflexivity.
  - reflexivity.
Qed.

Lemma pop_header_nil name : _pop_header [] name = (None, []).
Proof. reflexivity. Qed.

(** [_pop_header] walks the entries in insertion order and takes out
    the first one whose key matches. *)
Lemma pop_header_cons k0 v0 h name :
  _pop_header ((k0, v0) :: h) name =
  if header_named name k0 then (Some v0, h)
  else (fst (_pop_header h name), (k0, v0) :: snd (_pop_header h name)).
Proof.
  unfold _pop_header. simpl.
  destruct (header_named name k0) eqn:M.
  - simpl. now rewrite String.eqb_refl.
  - destruct (find (header_named name) (Dict.keys h)) as [k|] eqn:F; simpl.
    + apply find_some in F. destruct F as [_ Mk].
      destruct (String.eqb_spec k0 k) as [E|N]; [congruence|reflexivity].
    + reflexivity.
Qed.

Lemma pop_header_value h name :
  fst (_pop_header h name)
  = option_map snd (find (fun kv => header_named name (fst kv)) h).
Proof.
  induction h as [|[k0 v0] h IH]; [reflexivity|].
  rewrite pop_header_cons. simpl.
  destruct (header_named name k0); [reflexivity|exact IH].
Qed.

Lemma pop_header_keys h name :
  filter (header_named name) (Dict.keys (snd (_pop_header h name)))
  = tl (filter (header_named name) (Dict.keys h)).
Proof.
  induction h as [|[k0 v0] h IH]; [reflexivity|].
  rewrite pop_header_cons. simpl.
  destruct (header_named name k0) eqn:M; simpl; [reflexivity|].
  rewrite M. exact IH.
Qed.

Lemma pop_header_In h name x :
  In x (Dict.keys (snd (_pop_header h name))) -> In x (Dict.keys h).
Proof.
  induction h as [|[k0 v0] h IH]; [tauto|].
  rewrite pop_header_cons. destruct (header_named name k0); simpl; [tauto|].
  intros [E|I]; auto.
Qed.

Lemma pop_header_In_other h name x :
  header_named name x = false ->
  In x (Dict.keys h) -> In x (Dict.keys (snd (_pop_header h name))).
Proof.
  intros N. induction h as [|[k0 v0] h IH]; [tauto|].
  rewrite pop_header_cons. destruct (header_named name k0) eqn:M; simpl.
  - intros [E|I]; [congruence|assumption].
  - intros [E|I]; auto.
Qed.

Lemma pop_header_NoDup h name :
  NoDup (Dict.keys h) -> NoDup (Dict.keys (snd (_pop_header h name))).
Proof.
  induction h as [|[k0 v0] h IH]; [trivial|].
  rewrite pop_header_cons. simpl. intros ND.
  inversion ND as [|? ? N ND']; subst.
  destruct (header_named name k0); simpl; [assumption|].
  constructor; [|auto]. intros I. apply N. eapply pop_header_In; eauto.
Qed.

(** After a pop, as many keys match as before less one. *)
Lemma pop_header_count h name :
  length (filter (header_named name) (Dict.keys (snd (_pop_header h name))))
  = pred (length (filter (header_named name) (Dict.keys h))).
Proof.
  rewrite pop_header_keys.
  destruct (filter (header_named name) (Dict.keys h)); reflexivity.
Qed.

(** A pop for one name leaves the keys of another name alone. *)
Lemma pop_header_count_other h name other :
  Str.lower name <> Str.lower other ->
  filter (header_named other) (Dict.keys (snd (_pop_header h name)))
  = filter (header_named other) (Dict.keys h).
Proof.
  intros N. induction h as [|[k0 v0] h IH]; [reflexivity|].
  rewrite pop_header_cons.
  destruct (header_named name k0) eqn:M; simpl.
  - destruct (header_named other k0) eqn:M'; [|reflexivity].
    unfold header_named in *. apply String.eqb_eq in M, M'. congruence.
  - rewrite IH. reflexivity.
Qed.

Lemma parse_header_line_NoDup h line :
  NoDup (Dict.keys h) -> NoDup (Dict.keys (parse_header_line h line)).
Proof.
  unfold parse_header_line. destruct (split_colon line) as [[k v]|]; [|trivial].
  apply NoDup_keys_set.
Qed.

Lemma parse_headers_NoDup lines h :
  NoDup (Dict.keys h) -> NoDup (Dict.keys (fold_left parse_header_line lines h)).
Proof.
  revert h. induction lines as [|l lines IH]; intros h ND; [assumption|].
  simpl. apply IH, parse_header_line_NoDup, ND.
Qed.

Lemma split_not_nil c s : Str.split c s <> [].
Proof.
  destruct s as [|a s]; simpl; [discriminate|].
  destruct (Ascii.eqb a c); [discriminate|].
  destruct (Str.split c s); discriminate.
Qed.

(** [_parse_http_request] never raises: [lines[0]] always exists. *)
Lemma parse_total text : exists r, _parse_http_request text = Return r.
Proof.
  unfold _parse_http_request.
  destruct (Str.partition _ _) as [[hp sep] body].
  destruct (Str.split NL hp) as [|l0 rest] eqn:E.
  - destruct (split_not_nil _ _ E).
  - eauto.
Qed.

(** The headers of a parsed request have pairwise different names. *)
Lemma parse_headers_unique text m pa hs b :
  _parse_http_request text = Return (m, pa, hs, b) -> NoDup (Dict.keys hs).
Proof.
  unfold _parse_http_request.
  destruct (Str.partition _ _) as [[hp sep] body].
  destruct (Str.split NL hp) as [|l0 rest]; [discriminate|].
  intros E. injection E as _ _ <- _. apply parse_headers_NoDup. constructor.
Qed.

(** ** Facts about the preparation step of [repeat] *)

Section PrepareFacts.
Variable py_str : json -> string.

Lemma prepare_inv item rt id spec p :
  prepare py_str item rt id spec = Return p ->
  exists text m pa hs b d u host,
    rt = JStr text
    /\ _parse_http_request (substitute text (replacements spec))
       = Return (m, pa, hs, b)
    /\ item = JObj d
    /\ field d "url" = JStr u
    /\ host = match fst (_pop_header hs "host") with
              | Some (String c h) => String c h
              | _ => format_value py_str (field d "host")
              end
    /\ p_method p = m
    /\ p_url p = (if Str.startswith "https" u then "https" else "http")
                 ++ "://" ++ host ++ pa
    /\ p_headers p = Dict.set (overridden (stripped hs) spec) "X-Burp-MCP"
                              ("repeat:" ++ Str.of_Z id)
    /\ p_body p = match (match new_body spec with Some x => x | None => b end) with
                  | EmptyString => None
                  | String c r => Some (String c r)
                  end.
Proof.
  unfold prepare. destruct rt as [| | |text| |]; simpl; try discriminate.
  destruct (_parse_http_request _) as [[[[m pa] hs] b]|e] eqn:P; [|discriminate].
  destruct item as [| | | | |d]; simpl; try discriminate.
  fold (field d "url"). destruct (field d "url") as [| | |u| |] eqn:U; simpl;
    try discriminate.
  destruct (_pop_header hs "host") as [popped hs1] eqn:PH.
  fold (field d "host").
  intros E.
  assert (HS : hs1 = snd (_pop_header hs "host")) by now rewrite PH.
  assert (HP : popped = fst (_pop_header hs "host")) by now rewrite PH.
  exists text, m, pa, hs, b, d, u.
  eexists. split; [reflexivity|]. split; [exact P|].
  split; [reflexivity|]. split; [exact U|]. split; [reflexivity|].
  rewrite <- HP. unfold stripped, overridden. rewrite <- HS.
  destruct popped as [[|c h]|]; simpl in E; injection E as <-; simpl;
    (split; [reflexivity|]); (split; [reflexivity|]);
    (split; [destruct (add_headers spec) as [[|kv a]|]; reflexivity|]);
    destruct (new_body spec) as [[|c' r]|]; try reflexivity;
    destruct b; reflexivity.
Qed.

End PrepareFacts.

(** ** Facts about the client and the tools *)

Section ClientFacts.
Variable urlopen_get : string -> urlopen_outcome.
Variable urlopen_post : string -> json -> urlopen_outcome.
Variable requests_request : outbound -> requests_outcome.
Variable requests_installed : bool.
Variable urlencode : list (string * string) -> string.
Variable py_str : json -> string.

Local Notation "'Get'" := (get urlopen_get urlencode).
Local Notation "'Request'" := (request requests_request requests_installed).
Local Notation "'Repeat'" :=
  (repeat urlopen_get requests_request requests_installed urlencode py_str).
Local Notation "'Prepare'" := (prepare py_str).
Local Notation "'Run'" :=
  (run_tool urlopen_get urlopen_post requests_request requests_installed
            urlencode py_str).

Lemma get_untruncated self id log :
  Get self id 0 log =
  ((log ++ [UrlopenGet (item_url self id)])%list,
   match urlopen_get (item_url self id) with
   | UrlOk v => Return v
   | HTTPError code body => Raise (RuntimeError (http_error_msg code body))
   | HTTPErrorRaising code e => Raise e
   | URLError =>
       Raise (RuntimeError
                ("Cannot connect to Burp REST Bridge at " ++ base_url self
                 ++ ". Is the extension loaded and Burp running?"))
   | UrlopenRaises e => Raise e
   end).
Proof.
  unfold get, _get, item_url, http_error_msg. simpl.
  destruct (urlopen_get _); reflexivity.
Qed.

Lemma request_log self method url headers body port max log :
  fst (Request self method url headers body port max log) =
  (log ++ if requests_installed
          then [RequestsRequest (request_call method url headers body port)]
          else [])%list.
Proof.
  unfold request. destruct requests_installed; simpl.
  - destruct (requests_request _); reflexivity.
  - now rewrite app_nil_r.
Qed.

(** What [repeat] adds to the log: the fetch of the item, then at most one
    transmission, of the request [prepare] built from the fetched item. *)
Lemma repeat_log self id spec port max log :
  exists rest,
    fst (Repeat self id spec port max log)
    = (log ++ UrlopenGet (item_url self id) :: rest)%list
    /\ (rest = []
        \/ exists item rt p,
             urlopen_get (item_url self id) = UrlOk item
             /\ json_get item "request_text" (JStr "") = Return rt
             /\ truthy rt = true
             /\ Prepare item rt id spec = Return p
             /\ rest = [RequestsRequest
                          (request_call (p_method p) (p_url p)
                                        (Some (p_headers p)) (p_body p) port)]).
Proof.
  unfold repeat, bind. rewrite get_untruncated.
  destruct (urlopen_get (item_url self id)) as [item| | | |] eqn:G;
    try (exists []; split; [reflexivity|now left]).
  unfold lift.
  destruct (json_get item "request_text" (JStr "")) as [rt|e] eqn:J;
    [|exists []; split; [reflexivity|now left]].
  destruct (truthy rt) eqn:T; simpl;
    [|exists []; split; [reflexivity|now left]].
  destruct (Prepare item rt id spec) as [p|e] eqn:P;
    [|exists []; split; [reflexivity|now left]].
  pose proof (request_log self (p_method p) (p_url p) (Some (p_headers p))
                          (p_body p) port max
                          (log ++ [UrlopenGet (item_url self id)])%list) as RL.
  destruct (Request self (p_method p) (p_url p) (Some (p_headers p)) (p_body p)
                    port max (log ++ [UrlopenGet (item_url self id)])%list)
    as [log2 [res|e]] eqn:R; simpl in RL; subst log2.
  - exists (if requests_installed
            then [RequestsRequest (request_call (p_method p) (p_url p)
                                     (Some (p_headers p)) (p_body p) port)]
            else []).
    split.
    + destruct res; simpl; now rewrite <- app_assoc.
    + destruct requests_installed; [right|now left].
      exists item, rt, p. auto.
  - exists (if requests_installed
            then [RequestsRequest (request_call (p_method p) (p_url p)
                                     (Some (p_headers p)) (p_body p) port)]
            else []).
    split.
    + simpl; now rewrite <- app_assoc.
    + destruct requests_installed; [right|now left].
      exists item, rt, p. auto.
Qed.

End ClientFacts.

(** ** C1: header overrides *)

(** C1, as stated, fails: the parsed request holds [content-type], the
    override is named [Content-Type]; after [repeat]'s preparation the header
    set holds both entries, the old one with its old value. *)
Lemma C1_case_variant_is_added :
  exists p,
    prepare no_py_str login_item (JStr login_text) 7 override_content_type
    = Return p
    /\ p_headers p = [ ("content-type", "text/plain");
                       ("Content-Type", "application/json");
                       ("X-Burp-MCP", "repeat:7") ].
Proof. eexists. split; reflexivity. Qed.

Lemma stripped_keeps hs k :
  In k (Dict.keys hs) -> ~ In (Str.lower k) popped_names ->
  In k (Dict.keys (stripped hs)).
Proof.
  intros I N. unfold stripped.
  repeat apply pop_header_In_other; try assumption;
    unfold header_named; apply String.eqb_neq; intros E; apply N;
    rewrite E; simpl; tauto.
Qed.

Lemma stripped_NoDup hs : NoDup (Dict.keys hs) -> NoDup (Dict.keys (stripped hs)).
Proof. intros ND. unfold stripped. now repeat apply pop_header_NoDup. Qed.

Lemma overridden_NoDup h spec :
  NoDup (Dict.keys h) -> NoDup (Dict.keys (overridden h spec)).
Proof.
  unfold overridden. destruct (add_headers spec); [apply NoDup_keys_update|trivial].
Qed.

(** C1, amended: an override names an entry by its exact name.  For every
    override [k: v] of the mutation spec (other than the marker
    [X-Burp-MCP], which [repeat] sets itself) the header set [repeat]
    prepares holds exactly one entry named [k], with value [v]: an entry of
    that exact name is overwritten, never doubled.  Every other parsed
    header that is not popped, so also one whose name differs from [k] only
    in case, stays in the set; the entries that were there before the
    overrides keep their places, new names come after them. *)
Theorem C1_override_exact_name :
  forall py_str item text id spec p m pa hs b a k v,
    prepare py_str item (JStr text) id spec = Return p ->
    _parse_http_request (substitute text (replacements spec))
    = Return (m, pa, hs, b) ->
    add_headers spec = Some a ->
    NoDup (Dict.keys a) ->
    Dict.get a k = Some v ->
    k <> "X-Burp-MCP" ->
    Dict.get (p_headers p) k = Some v
    /\ count_occ string_dec (Dict.keys (p_headers p)) k = 1
    /\ (forall k', In k' (Dict.keys hs) -> ~ In (Str.lower k') popped_names ->
                   In k' (Dict.keys (p_headers p)))
    /\ exists added,
         Dict.keys (p_headers p) = (Dict.keys (stripped hs) ++ added)%list.
Proof.
  intros py_str item text id spec p m pa hs b a k v HP Hparse Ha ND G NX.
  destruct (prepare_inv _ _ _ _ _ _ HP)
    as (text' & m' & pa' & hs' & b' & d & u & host & Et & P' & _ & _ & _ & _ & _ & Hh & _).
  injection Et as <-. rewrite Hparse in P'. injection P' as <- <- <- <-.
  assert (NDh : NoDup (Dict.keys (p_headers p))).
  { rewrite Hh. apply NoDup_keys_set, overridden_NoDup, stripped_NoDup.
    eapply parse_headers_unique; eauto. }
  assert (Gk : Dict.get (p_headers p) k = Some v).
  { rewrite Hh, get_set_other by assumption.
    unfold overridden. rewrite Ha. now apply get_update_In. }
  split; [exact Gk|]. split; [|split].
  - apply NoDup_count_occ'; [assumption|]. eapply get_Some_In_keys; eauto.
  - intros k' I N. rewrite Hh. apply In_keys_set. right.
    unfold overridden. rewrite Ha. apply In_keys_update. left.
    now apply stripped_keeps.
  - rewrite Hh. unfold overridden. rewrite Ha.
    destruct (keys_set (Dict.update (stripped hs) a) "X-Burp-MCP"
                       ("repeat:" ++ Str.of_Z id)) as (e1 & E1 & _).
    destruct (keys_update (stripped hs) a) as (e2 & E2 & _).
    exists (e2 ++ e1)%list. now rewrite E1, E2, app_assoc.
Qed.

Lemma C1_override_exact_name_witness :
  exists p,
    prepare no_py_str login_item (JStr login_text) 7 override_content_type
    = Return p
    /\ Dict.get (p_headers p) "Content-Type" = Some "application/json"
    /\ count_occ string_dec (Dict.keys (p_headers p)) "Content-Type" = 1
    /\ In "content-type" (Dict.keys (p_headers p)).
Proof.
  eexists. split; [reflexivity|].
  destruct (C1_override_exact_name no_py_str login_item login_text 7
              override_content_type _ "POST" "/login"
              [ ("Host", "a.test"); ("Content-Length", "9");
                ("content-type", "text/plain") ]
              "user=bob"
              [("Content-Type", "application/json")]
              "Content-Type" "application/json"
              eq_refl eq_refl eq_refl) as (H1 & H2 & H3 & _).
  - repeat constructor; simpl; tauto.
  - reflexivity.
  - discriminate.
  - split; [exact H1|]. split; [exact H2|].
    apply H3; simpl; [tauto|].
    intros [E|[E|[E|[]]]]; discriminate.
Defined.

(** ** C2: the headers the transport manages *)

(** C2, as stated, fails, in both ways it names: an override
    [Content-Length] is applied after the pops and stays in the prepared
    header set; and of two casings in the captured text only the first is
    popped. *)
Lemma C2_content_length_survives :
  (exists p,
     prepare no_py_str login_item (JStr login_text) 7 override_content_length
     = Return p
     /\ p_headers p = [ ("content-type", "text/plain");
                        ("Content-Length", "3");
                        ("X-Burp-MCP", "repeat:7") ])
  /\ (exists p,
        prepare no_py_str login_item (JStr two_casings_text) 7 no_mutation
        = Return p
        /\ p_headers p = [ ("content-length", "9");
                           ("X-Burp-MCP", "repeat:7") ]).
Proof. split; eexists; split; reflexivity. Qed.

Lemma filter_nil_not_In (f : string -> bool) l k :
  length (filter f l) = 0 -> In k l -> f k = false.
Proof.
  intros L I. destruct (f k) eqn:F; [|reflexivity].
  assert (In k (filter f l)) by (apply filter_In; auto).
  destruct (filter f l); [contradiction|discriminate].
Qed.

(** After the pops no key is left under a popped name that at most one key
    of the parsed request carried. *)
Lemma stripped_clears hs auto k :
  In auto ["content-length"; "transfer-encoding"] ->
  length (filter (header_named auto) (Dict.keys hs)) <= 1 ->
  In k (Dict.keys (stripped hs)) -> header_named auto k = false.
Proof.
  intros IA L. apply filter_nil_not_In. unfold stripped.
  destruct IA as [<-|[<-|[]]].
  - rewrite pop_header_count_other by discriminate.
    rewrite pop_header_count.
    rewrite pop_header_count_other by discriminate. lia.
  - rewrite pop_header_count.
    rewrite !pop_header_count_other by discriminate. lia.
Qed.

(** C2, amended: when at most one header name of the parsed request matches
    [content-length] and at most one matches [transfer-encoding], and no
    override of the mutation spec is named so (all up to case), the header
    set [repeat] prepares holds no header of either name, up to case. *)
Theorem C2_auto_headers_stripped :
  forall py_str item text id spec p m pa hs b,
    prepare py_str item (JStr text) id spec = Return p ->
    _parse_http_request (substitute text (replacements spec))
    = Return (m, pa, hs, b) ->
    (forall auto, In auto ["content-length"; "transfer-encoding"] ->
                  length (filter (header_named auto) (Dict.keys hs)) <= 1) ->
    (forall a k auto, add_headers spec = Some a -> In k (Dict.keys a) ->
                      In auto ["content-length"; "transfer-encoding"] ->
                      header_named auto k = false) ->
    forall k auto, In k (Dict.keys (p_headers p)) ->
                   In auto ["content-length"; "transfer-encoding"] ->
                   header_named auto k = false.
Proof.
  intros py_str item text id spec p m pa hs b HP Hparse H1 H2 k auto I IA.
  destruct (prepare_inv _ _ _ _ _ _ HP)
    as (text' & m' & pa' & hs' & b' & d & u & host & Et & P' & _ & _ & _ & _ & _ & Hh & _).
  injection Et as <-. rewrite Hparse in P'. injection P' as <- <- <- <-.
  rewrite Hh in I. apply In_keys_set in I. destruct I as [->|I].
  - destruct IA as [<-|[<-|[]]]; reflexivity.
  - unfold overridden in I. destruct (add_headers spec) as [a|] eqn:Ha.
    + apply In_keys_update in I. destruct I as [I|I].
      * eapply stripped_clears; eauto.
      * eapply H2; eauto.
    + eapply stripped_clears; eauto.
Qed.

Lemma C2_auto_headers_stripped_witness :
  exists p,
    prepare no_py_str login_item (JStr login_text) 7 no_mutation = Return p
    /\ forall k auto, In k (Dict.keys (p_headers p)) ->
                      In auto ["content-length"; "transfer-encoding"] ->
                      header_named auto k = false.
Proof.
  eexists. split; [reflexivity|].
  apply (C2_auto_headers_stripped no_py_str login_item login_text 7
           no_mutation _ "POST" "/login"
           [ ("Host", "a.test"); ("Content-Length", "9");
             ("content-type", "text/plain") ]
           "user=bob" eq_refl eq_refl).
  - intros auto [<-|[<-|[]]]; vm_compute; lia.
  - intros a k auto E. discriminate.
Defined.

(** ** C3: the request line *)

(** C3 at the empty text and at a text whose first line is empty: parsing
    returns, the path is the default [/], but the method is the empty
    string, not [GET]: [split] never returns the empty list, so the
    [else "GET"] of line 345 is never taken. *)
Theorem C3_method_default_not_applied :
  _parse_http_request "" = Return ("", "/", [], "")
  /\ _parse_http_request (text_of_lines [""; "Host: a.test"; ""; ""])
     = Return ("", "/", [("Host", "a.test")], "").
Proof. split; reflexivity. Qed.

(** ** Claims about the runs of [repeat] and [request] *)

Lemma send_headers_of_marked h v :
  Dict.get h "X-Burp-MCP" = Some v -> send_headers_of (Some h) = h.
Proof.
  intros G. unfold send_headers_of. destruct h as [|kv h]; [discriminate|].
  unfold Dict.mem. now rewrite G.
Qed.

Lemma send_headers_of_marker headers :
  Dict.get (send_headers_of headers) "X-Burp-MCP"
  = Some (match (match headers with
                 | Some h => Dict.get h "X-Burp-MCP"
                 | None => None
                 end) with
          | Some v => v
          | None => "request"
          end).
Proof.
  unfold send_headers_of. destruct headers as [[|kv h]|]; try reflexivity.
  unfold Dict.mem. destruct (Dict.get (kv :: h) "X-Burp-MCP") eqn:G.
  - exact G.
  - apply get_set_same.
Qed.

Lemma stripped_clears_host hs k :
  length (filter (header_named "host") (Dict.keys hs)) <= 1 ->
  In k (Dict.keys (stripped hs)) -> header_named "host" k = false.
Proof.
  intros L. apply filter_nil_not_In. unfold stripped.
  rewrite !pop_header_count_other by discriminate.
  rewrite pop_header_count. lia.
Qed.

Section Claims.
Variable urlopen_get : string -> urlopen_outcome.
Variable urlopen_post : string -> json -> urlopen_outcome.
Variable requests_request : outbound -> requests_outcome.
Variable requests_installed : bool.
Variable urlencode : list (string * string) -> string.
Variable py_str : json -> string.

Local Notation "'Request'" := (request requests_request requests_installed).
Local Notation "'Repeat'" :=
  (repeat urlopen_get requests_request requests_installed urlencode py_str).
Local Notation "'Prepare'" := (prepare py_str).

(** A transmission of a run of [repeat] is the one its preparation built. *)
Lemma repeat_transmits self id spec port max log rest r :
  fst (Repeat self id spec port max log) = (log ++ rest)%list ->
  In (RequestsRequest r) rest ->
  exists item rt p,
    urlopen_get (item_url self id) = UrlOk item
    /\ json_get item "request_text" (JStr "") = Return rt
    /\ truthy rt = true
    /\ Prepare item rt id spec = Return p
    /\ r = request_call (p_method p) (p_url p) (Some (p_headers p)) (p_body p) port.
Proof.
  intros E I.
  destruct (repeat_log urlopen_get requests_request requests_installed
              urlencode py_str self id spec port max log) as (rest' & E' & C).
  rewrite E in E'. apply app_inv_head in E'. subst rest.
  destruct I as [D|I]; [discriminate|].
  destruct C as [->|(item & rt & p & G & J & T & P & ->)]; [destruct I|].
  destruct I as [D|[]]. injection D as <-.
  exists item, rt, p. auto.
Qed.

Lemma request_transmits self method url headers body port max log rest r :
  fst (Request self method url headers body port max log) = (log ++ rest)%list ->
  In (RequestsRequest r) rest ->
  requests_installed = true
  /\ rest = [RequestsRequest r]
  /\ r = request_call method url headers body port.
Proof.
  rewrite request_log. intros E I. apply app_inv_head in E. subst rest.
  destruct requests_installed; [|destruct I].
  destruct I as [D|[]]. injection D as <-. auto.
Qed.

(** C5: [repeat] first asks the store for the item at the address without
    a [max_body] parameter, as [get(item_id, max_body=0)] does; when the
    item it gets has no [request_text] or an empty one, [repeat] raises
    [RuntimeError("No request text for item <id>")] and the fetch is the
    only event of the run: nothing was transmitted. *)
Theorem C5_no_request_text :
  forall self id spec port max log,
    (exists rest,
       fst (Repeat self id spec port max log)
       = (log ++ UrlopenGet (item_url self id) :: rest)%list)
    /\ forall d,
         urlopen_get (item_url self id) = UrlOk (JObj d) ->
         Dict.get d "request_text" = None
         \/ Dict.get d "request_text" = Some (JStr "") ->
         Repeat self id spec port max log
         = ((log ++ [UrlopenGet (item_url self id)])%list,
            Raise (RuntimeError (no_text_msg id))).
Proof.
  intros self id spec port max log. split.
  - destruct (repeat_log urlopen_get requests_request requests_installed
                urlencode py_str self id spec port max log) as (rest & E & _).
    eauto.
  - intros d G H. unfold repeat, bind. rewrite get_untruncated, G.
    unfold lift, json_get. destruct H as [-> | ->]; reflexivity.
Qed.

(** C7: the body [request] returns.  With a limit [max] greater than zero
    and a response text longer than [max], it is the first [max] characters
    of the text followed by a line break and [[... N chars omitted]], [N]
    the decimal of the length less [max]; with [max] zero (or below) or the
    text no longer than [max], it is the text. *)
Theorem C7_truncation :
  forall self method url headers body port max log r status rh text,
    fst (Request self method url headers body port max log)
    = (log ++ [RequestsRequest r])%list ->
    requests_request r = Response status rh text ->
    exists d,
      snd (Request self method url headers body port max log) = Return (JObj d)
      /\ ((0 < max)%Z -> (max < Z.of_nat (String.length text))%Z ->
          Dict.get d "body"
          = Some (JStr (Str.take (Z.to_nat max) text ++ Str.LF ++ "[... "
                        ++ Str.of_Z (Z.of_nat (String.length text) - max)
                        ++ " chars omitted]")))
      /\ ((max <= 0)%Z \/ (Z.of_nat (String.length text) <= max)%Z ->
          Dict.get d "body" = Some (JStr text)).
Proof.
  intros self method url headers body port max log r status rh text E R.
  destruct (request_transmits _ _ _ _ _ _ _ _ _ _ E (or_introl eq_refl))
    as (Inst & _ & ->).
  unfold request. rewrite Inst. simpl. rewrite R. simpl.
  eexists. split; [reflexivity|]. simpl. unfold truncate_body. split.
  - intros H1 H2.
    replace (max >? 0)%Z with true by (symmetry; apply Z.gtb_lt; lia).
    replace (Z.of_nat (String.length text) >? max)%Z with true
      by (symmetry; apply Z.gtb_lt; lia).
    reflexivity.
  - intros [H|H].
    + replace (max >? 0)%Z with false; [reflexivity|].
      symmetry. rewrite Z.gtb_ltb. apply Z.ltb_ge. lia.
    + replace (Z.of_nat (String.length text) >? max)%Z with false;
        [now rewrite andb_false_r|].
      symmetry. rewrite Z.gtb_ltb. apply Z.ltb_ge. lia.
Qed.

(** X30: the marker under its exact name.  The header dictionary of every
    request a run of [repeat] transmits maps the key [X-Burp-MCP] to
    [repeat:<item_id>], whatever the overrides and the captured request
    give under that key; the one of every request a run of [request]
    transmits maps [X-Burp-MCP] to the caller's value under that key, or
    else to [request]. *)
Theorem marker_under_exact_name :
  (forall self id spec port max log rest r,
      fst (Repeat self id spec port max log) = (log ++ rest)%list ->
      In (RequestsRequest r) rest ->
      Dict.get (ob_headers r) "X-Burp-MCP" = Some ("repeat:" ++ Str.of_Z id))
  /\ (forall self method url headers body port max log rest r,
         fst (Request self method url headers body port max log)
         = (log ++ rest)%list ->
         In (RequestsRequest r) rest ->
         Dict.get (ob_headers r) "X-Burp-MCP"
         = Some (match (match headers with
                        | Some h => Dict.get h "X-Burp-MCP"
                        | None => None
                        end) with
                 | Some v => v
                 | None => "request"
                 end)).
Proof.
  split.
  - intros self id spec port max log rest r E I.
    destruct (repeat_transmits _ _ _ _ _ _ _ _ E I)
      as (item & rt & p & _ & _ & _ & P & ->).
    destruct (prepare_inv _ _ _ _ _ _ P)
      as (text & m & pa & hs & b & d & u & host & _ & _ & _ & _ & _ & _ & _ & Hh & _).
    simpl.
    assert (G : Dict.get (p_headers p) "X-Burp-MCP"
                = Some ("repeat:" ++ Str.of_Z id))
      by (rewrite Hh; apply get_set_same).
    now rewrite (send_headers_of_marked _ _ G).
  - intros self method url headers body port max log rest r E I.
    destruct (request_transmits _ _ _ _ _ _ _ _ _ _ E I) as (_ & _ & ->).
    simpl. apply send_headers_of_marker.
Qed.

(** C10: the body of a request a run of [repeat] transmits.  With [body]
    the replacement of the mutation spec when there is one and the body of
    the parsed request otherwise, the transport gets no body ([data=None])
    when [body] is empty and the encoded [body] otherwise; a replacement by
    the empty string is transmitted as no body. *)
Theorem C10_empty_body_is_no_body :
  forall self id spec port max log rest r,
    fst (Repeat self id spec port max log) = (log ++ rest)%list ->
    In (RequestsRequest r) rest ->
    (new_body spec = Some "" -> ob_data r = None)
    /\ exists body,
         ob_data r = match body with
                     | EmptyString => None
                     | String _ _ => Some (encode body)
                     end
         /\ (forall b, new_body spec = Some b -> body = b)
         /\ (new_body spec = None ->
             exists item text m pa hs,
               urlopen_get (item_url self id) = UrlOk item
               /\ json_get item "request_text" (JStr "") = Return (JStr text)
               /\ _parse_http_request (substitute text (replacements spec))
                  = Return (m, pa, hs, body)).
Proof.
  intros self id spec port max log rest r E I.
  destruct (repeat_transmits _ _ _ _ _ _ _ _ E I)
    as (item & rt & p & G & J & _ & P & ->).
  destruct (prepare_inv _ _ _ _ _ _ P)
    as (text & m & pa & hs & b & d & u & host & -> & Hparse & _ & _ & _ & _ & _ & _ & Hb).
  simpl. rewrite Hb. split.
  - intros ->. reflexivity.
  - exists (match new_body spec with Some x => x | None => b end). split.
    + destruct (match new_body spec with Some x => x | None => b end); reflexivity.
    + split.
      * intros b0 ->. reflexivity.
      * intros ->. exists item, text, m, pa, hs. auto.
Qed.

(** C6, amended: the address [repeat] transmits to.  The scheme is [https]
    when the recorded [url] of the item starts with [https] and [http]
    otherwise, also when the item records no [url].  The host is the value
    of the first header named [host], up to case, of the request parsed
    after the text substitutions, when that value is not empty, and the
    recorded [host] of the item otherwise; the overrides of the mutation
    spec, applied later, have no part in it.  When at most one parsed
    header is named [host] and no override is, the transmitted header set
    holds no header named [host]. *)
Theorem C6_outbound_url :
  forall self id spec port max log rest r,
    fst (Repeat self id spec port max log) = (log ++ rest)%list ->
    In (RequestsRequest r) rest ->
    exists d text m pa hs b u,
      urlopen_get (item_url self id) = UrlOk (JObj d)
      /\ Dict.get d "request_text" = Some (JStr text)
      /\ _parse_http_request (substitute text (replacements spec))
         = Return (m, pa, hs, b)
      /\ field d "url" = JStr u
      /\ ob_url r
         = (if Str.startswith "https" u then "https" else "http")
           ++ "://"
           ++ match find (fun kv => header_named "host" (fst kv)) hs with
              | Some (_, String c h) => String c h
              | _ => format_value py_str (field d "host")
              end
           ++ pa
      /\ (length (filter (header_named "host") (Dict.keys hs)) <= 1 ->
          (forall a k, add_headers spec = Some a -> In k (Dict.keys a) ->
                       header_named "host" k = false) ->
          forall k, In k (Dict.keys (ob_headers r)) ->
                    header_named "host" k = false).
Proof.
  intros self id spec port max log rest r E I.
  destruct (repeat_transmits _ _ _ _ _ _ _ _ E I)
    as (item & rt & p & G & J & T & P & ->).
  destruct (prepare_inv _ _ _ _ _ _ P)
    as (text & m & pa & hs & b & d & u & host
        & -> & Hparse & -> & U & Hhost & _ & Hurl & Hh & _).
  exists d, text, m, pa, hs, b, u.
  split; [exact G|]. split.
  { simpl in J. injection J as J.
    destruct (Dict.get d "request_text") as [x|]; [now subst|].
    rewrite <- J in T. discriminate. }
  split; [exact Hparse|]. split; [exact U|]. split.
  - simpl. rewrite Hurl, Hhost, pop_header_value.
    destruct (find (fun kv => header_named "host" (fst kv)) hs) as [[k0 [|c h]]|];
      reflexivity.
  - intros L HA k Ik. simpl in Ik.
    assert (GM : Dict.get (p_headers p) "X-Burp-MCP"
                 = Some ("repeat:" ++ Str.of_Z id))
      by (rewrite Hh; apply get_set_same).
    rewrite (send_headers_of_marked _ _ GM), Hh in Ik.
    apply In_keys_set in Ik. destruct Ik as [->|Ik]; [reflexivity|].
    unfold overridden in Ik. destruct (add_headers spec) as [a|] eqn:Ha.
    + apply In_keys_update in Ik. destruct Ik as [Ik|Ik].
      * now apply (stripped_clears_host hs).
      * eapply HA; eauto.
    + now apply (stripped_clears_host hs).
Qed.









End Claims.

(** ** Runs against the sample store and proxy *)

(** The scenario of the specification: item 7 is
    [POST /login HTTP/1.1], [Host: a.test], [Content-Length: 9], body
    [user=bob]; the body is replaced by [user=alice]. *)
Example end_to_end_scenario :
  prepare no_py_str login_item
          (JStr (text_of_lines [ "POST /login HTTP/1.1"; "Host: a.test";
                                 "Content-Length: 9"; ""; "user=bob" ]))
          7 {| replacements := None; add_headers := None;
               new_body := Some "user=alice" |}
  = Return {| p_method := "POST";
              p_url := "https://a.test/login";
              p_headers := [("X-Burp-MCP", "repeat:7")];
              p_body := Some "user=alice" |}.
Proof. reflexivity. Qed.

Lemma C5_no_request_text_witness :
  sample_repeat 8 no_mutation 4000
  = ([UrlopenGet "http://127.0.0.1:8090/proxy/history/8"],
     Raise (RuntimeError "No request text for item 8")).
Proof.
  apply (proj2 (C5_no_request_text sample_store sample_proxy true no_urlencode
                  no_py_str _client 8 no_mutation 8080 4000 [])
               [("id", JNum 8); ("url", JStr "http://a.test/")]).
  - reflexivity.
  - left. reflexivity.
Defined.

(** C6, as stated, fails.  A [Host] header with an empty value is present
    and is popped, yet the host is the recorded host of the item; and a
    [Host] override is in the header set handed to the transport, while the
    host of the address is that of the captured text. *)
Lemma C6_host_not_from_mutated_headers :
  (exists p,
     prepare no_py_str login_item (JStr empty_host_text) 7 no_mutation
     = Return p
     /\ p_url p = "https://b.test/login"
     /\ p_headers p = [("Accept", "*/*"); ("X-Burp-MCP", "repeat:7")])
  /\ (exists p,
        prepare no_py_str login_item (JStr login_text) 7 override_host
        = Return p
        /\ p_url p = "https://a.test/login"
        /\ p_headers p = [ ("content-type", "text/plain"); ("Host", "c.test");
                           ("X-Burp-MCP", "repeat:7") ]).
Proof. split; eexists; split; [reflexivity| |reflexivity|]; split; reflexivity. Qed.

Lemma C6_outbound_url_witness :
  In (RequestsRequest login_call) (fst (sample_repeat 7 no_mutation 4000))
  /\ ob_url login_call = "https://a.test/login"
  /\ forall k, In k (Dict.keys (ob_headers login_call)) ->
               header_named "host" k = false.
Proof.
  assert (I : In (RequestsRequest login_call)
                 (fst (sample_repeat 7 no_mutation 4000)))
    by (right; left; reflexivity).
  split; [exact I|].
  destruct (C6_outbound_url sample_store sample_proxy true no_urlencode
              no_py_str _client 7 no_mutation 8080 4000 [] _ login_call
              eq_refl I)
    as (d & text & m & pa & hs & b & u & G & T & P & U & Hurl & Hrm).
  injection G as <-. injection T as <-. injection P as <- <- <- <-.
  injection U as <-.
  split; [exact Hurl|].
  apply Hrm.
  - vm_compute. lia.
  - intros a k E. discriminate.
Defined.

Lemma C7_truncation_witness :
  exists d,
    snd (request sample_proxy true _client "get" "http://a.test/" None None
                 8080 10 [])
    = Return (JObj d)
    /\ Dict.get d "body"
       = Some (JStr ("abcdefghij" ++ Str.LF ++ "[... 15 chars omitted]")).
Proof.
  destruct (C7_truncation sample_proxy true _client "get" "http://a.test/"
              None None 8080 10 [] _ 200 [("Content-Type", "text/plain")]
              "abcdefghijklmnopqrstuvwxy" eq_refl eq_refl)
    as (d & H1 & H2 & _).
  exists d. split; [exact H1|]. apply H2; reflexivity.
Defined.

Lemma marker_under_exact_name_witness :
  In (RequestsRequest login_call) (fst (sample_repeat 7 override_marker 4000))
  /\ Dict.get (ob_headers login_call) "X-Burp-MCP" = Some "repeat:7".
Proof.
  assert (I : In (RequestsRequest login_call)
                 (fst (sample_repeat 7 override_marker 4000)))
    by (right; left; reflexivity).
  split; [exact I|].
  exact (proj1 (marker_under_exact_name sample_store sample_proxy true
                  no_urlencode no_py_str)
               _client 7%Z override_marker 8080%Z 4000%Z [] _ login_call eq_refl I).
Defined.

(** C8 at item 12, whose captured request carries [X-Burp-MCP: old], with
    the override [x-burp-mcp: mine]: [repeat] transmits a header dictionary
    that holds the marker [X-Burp-MCP: repeat:12] and, after it, the
    caller's [x-burp-mcp: mine].  The assignment of line 316 meets the
    captured key and keeps its place, the override of another case is a key
    of its own: the caller's value for the header is not replaced. *)
Theorem C8_marker_beside_case_variant :
  fst (repeat marked_store sample_proxy true no_urlencode no_py_str _client 12
              override_marker_lowercase 8080 4000 [])
  = [ UrlopenGet "http://127.0.0.1:8090/proxy/history/12";
      RequestsRequest
        (request_call "GET" "http://a.test/x"
                      (Some [ ("X-Burp-MCP", "repeat:12");
                              ("x-burp-mcp", "mine") ])
                      None 8080) ].
Proof. reflexivity. Qed.



Lemma C10_empty_body_is_no_body_witness :
  In (RequestsRequest login_call_no_body)
     (fst (sample_repeat 7 empty_body 4000))
  /\ ob_data login_call_no_body = None.
Proof.
  assert (I : In (RequestsRequest login_call_no_body)
                 (fst (sample_repeat 7 empty_body 4000)))
    by (right; left; reflexivity).
  split; [exact I|].
  exact (proj1 (C10_empty_body_is_no_body sample_store sample_proxy true
                  no_urlencode no_py_str _client 7 empty_body 8080 4000 []
                  _ login_call_no_body eq_refl I)
               eq_refl).
Defined.

(** ** Strings, [_parse_http_request] and [build] *)

Lemma sapp_assoc (a b c : string) : (a ++ b) ++ c = a ++ (b ++ c).
Proof. induction a as [|x a IH]; simpl; [reflexivity|now rewrite IH]. Qed.

Lemma sapp_nil_r (a : string) : a ++ "" = a.
Proof. induction a as [|x a IH]; simpl; [reflexivity|now rewrite IH]. Qed.

Lemma free_app c a b : free c (a ++ b) <-> free c a /\ free c b.
Proof. induction a as [|x a IH]; simpl; [tauto|]. rewrite IH. tauto. Qed.

Lemma free_take c n s : free c s -> free c (Str.take n s).
Proof.
  revert s. induction n as [|n IH]; intros [|x s]; simpl; auto.
  intros [H1 H2]. auto.
Qed.

Lemma free_drop c n s : free c s -> free c (Str.drop n s).
Proof.
  revert s. induction n as [|n IH]; intros [|x s]; simpl; auto.
  intros [H1 H2]. auto.
Qed.

Lemma free_lstrip c s : free c s -> free c (Str.lstrip s).
Proof.
  induction s as [|x s IH]; simpl; [trivial|].
  intros [H1 H2]. destruct (Str.is_space x); simpl; auto.
Qed.

Lemma free_rstrip c s : free c s -> free c (Str.rstrip s).
Proof.
  induction s as [|x s IH]; simpl; [trivial|].
  intros [H1 H2]. specialize (IH H2).
  destruct (Str.rstrip s); [destruct (Str.is_space x)|]; simpl in *; auto.
Qed.

Lemma free_strip c s : free c s -> free c (Str.strip s).
Proof. intros H. apply free_rstrip, free_lstrip, H. Qed.

(** *** [replace] *)

(** No match of [old] starts in a text free of the first character of
    [old]. *)
Lemma replace_scan_free_app o old new a s :
  free o a ->
  Str.replace_scan (String o old) new 0 (a ++ s)
  = a ++ Str.replace_scan (String o old) new 0 s.
Proof.
  induction a as [|x a IH]; [reflexivity|].
  intros [N F]. cbn [append Str.replace_scan Str.startswith].
  destruct (Ascii.eqb_spec o x) as [E|_]; [congruence|].
  simpl. now rewrite IH.
Qed.

Lemma replace_scan_free o old new s :
  free o s -> Str.replace_scan (String o old) new 0 s = s.
Proof.
  intros F. rewrite <- (sapp_nil_r s) at 1.
  rewrite replace_scan_free_app by assumption. simpl. apply sapp_nil_r.
Qed.

Lemma replace_CRLF_here s :
  Str.replace_scan Str.CRLF Str.LF 0 (Str.CRLF ++ s)
  = Str.LF ++ Str.replace_scan Str.CRLF Str.LF 0 s.
Proof. reflexivity. Qed.

(** After [.replace("\r", "\n")] no carriage return is left. *)
Lemma replace_CR_free s : free CRc (Str.replace_scan Str.CR Str.LF 0 s).
Proof.
  induction s as [|x s IH]; [exact I|].
  cbn [Str.replace_scan Str.startswith Str.CR].
  destruct (Ascii.eqb_spec (ascii_of_nat 13) x) as [E|N].
  - simpl. split; [discriminate|exact IH].
  - simpl. split; [intros E; apply N; now rewrite E|exact IH].
Qed.

Lemma normalize_free s : free CRc (normalize_newlines s).
Proof. unfold normalize_newlines, Str.replace. apply replace_CR_free. Qed.

(** *** [split] and [partition] *)

Lemma split_free c s : free c s -> Str.split c s = [s].
Proof.
  induction s as [|x s IH]; [reflexivity|].
  intros [N F]. simpl. destruct (Ascii.eqb_spec x c); [contradiction|].
  now rewrite IH.
Qed.

Lemma split_app c a s :
  free c a -> Str.split c (a ++ String c s) = a :: Str.split c s.
Proof.
  induction a as [|x a IH]; intros F.
  - simpl. now rewrite Ascii.eqb_refl.
  - destruct F as [N F]. simpl.
    destruct (Ascii.eqb_spec x c); [contradiction|]. now rewrite IH.
Qed.

(** The pieces of a split are free of the separator, and of every
    character the text is free of. *)
Lemma split_pieces c x s :
  (x = c \/ free x s) -> Forall (free x) (Str.split c s).
Proof.
  induction s as [|a s IH]; intros H.
  - repeat constructor.
  - simpl. destruct (Ascii.eqb_spec a c) as [E|N].
    + constructor; [exact I|]. apply IH. destruct H as [H|[_ H]]; auto.
    + assert (Hs : x = c \/ free x s) by (destruct H as [H|[_ H]]; auto).
      specialize (IH Hs).
      assert (Na : a <> x) by (destruct H as [->|[H _]]; auto).
      destruct (Str.split c s) as [|h t].
      * repeat constructor. exact Na.
      * inversion IH; subst. constructor; [split; assumption|assumption].
Qed.

Lemma split_colon_free x line k v :
  split_colon line = Some (k, v) ->
  free COLON k /\ (free x line -> free x k /\ free x v).
Proof.
  revert k. induction line as [|a s IH]; intros k; simpl; [discriminate|].
  destruct (Ascii.eqb_spec a COLON) as [E|N].
  - intros H. injection H as <- <-. simpl. tauto.
  - destruct (split_colon s) as [[k' v']|]; [|discriminate].
    intros H. injection H as <- <-. destruct (IH k' eq_refl) as [F1 F2].
    simpl. split; [tauto|]. intros [Na Fs]. destruct (F2 Fs). tauto.
Qed.

Lemma split_colon_app k v :
  free COLON k -> split_colon (k ++ String COLON v) = Some (k, v).
Proof.
  induction k as [|a k IH]; intros F; [reflexivity|].
  destruct F as [N F]. simpl.
  destruct (Ascii.eqb_spec a COLON); [contradiction|]. now rewrite IH.
Qed.

Lemma partition_cons x s sep :
  Str.startswith sep (String x s) = false ->
  Str.partition (String x s) sep
  = (String x (fst (fst (Str.partition s sep))),
     snd (fst (Str.partition s sep)), snd (Str.partition s sep)).
Proof.
  intros H. unfold Str.partition.
  cbn [Str.find]. rewrite H.
  destruct (Str.find sep s) as [i|]; reflexivity.
Qed.

Lemma partition_here s sep :
  Str.startswith sep s = true ->
  Str.partition s sep = ("", sep, Str.drop (String.length sep) s).
Proof.
  intros H. unfold Str.partition.
  destruct s; cbn [Str.find]; rewrite H; reflexivity.
Qed.

Lemma drop_app a s : Str.drop (String.length a) (a ++ s) = s.
Proof. induction a as [|x a IH]; simpl; [reflexivity|exact IH]. Qed.

Lemma startswith_blank_cons x s :
  x <> NL -> Str.startswith BLANK (String x s) = false.
Proof.
  intros N. unfold BLANK, Str.LF. cbn [append Str.startswith].
  destruct (Ascii.eqb_spec (ascii_of_nat 10) x) as [E|_]; [|reflexivity].
  destruct N. now rewrite <- E.
Qed.

(** A text free of line breaks holds no blank line and does not begin one. *)
Lemma partition_free_app a s :
  free NL a ->
  Str.partition (a ++ s) BLANK
  = (a ++ fst (fst (Str.partition s BLANK)),
     snd (fst (Str.partition s BLANK)), snd (Str.partition s BLANK)).
Proof.
  induction a as [|x a IH]; intros F.
  - simpl. now destruct (Str.partition s BLANK) as [[? ?] ?].
  - destruct F as [N F]. cbn [append]. rewrite partition_cons.
    + rewrite IH by assumption. reflexivity.
    + now apply startswith_blank_cons.
Qed.

(** *** [strip] *)

Lemma lstrip_no_leading s : no_leading_space (Str.lstrip s).
Proof.
  induction s as [|x s IH]; simpl; [exact I|].
  destruct (Str.is_space x) eqn:E; [exact IH|exact E].
Qed.

Lemma lstrip_id s : no_leading_space s -> Str.lstrip s = s.
Proof. destruct s as [|x s]; simpl; [reflexivity|]. now intros ->. Qed.

Lemma rstrip_no_leading s : no_leading_space s -> no_leading_space (Str.rstrip s).
Proof.
  destruct s as [|x s]; simpl; [trivial|]. intros E.
  destruct (Str.rstrip s); [rewrite E|]; exact E.
Qed.

Lemma rstrip_idem s : Str.rstrip (Str.rstrip s) = Str.rstrip s.
Proof.
  induction s as [|x s IH]; [reflexivity|]. simpl.
  destruct (Str.rstrip s) as [|y r] eqn:R.
  - destruct (Str.is_space x) eqn:E; simpl; [reflexivity|now rewrite E].
  - cbn [Str.rstrip]. cbn [Str.rstrip] in IH. rewrite IH. reflexivity.
Qed.

Lemma strip_no_leading s : no_leading_space (Str.strip s).
Proof. apply rstrip_no_leading, lstrip_no_leading. Qed.

Lemma strip_idem s : Str.strip (Str.strip s) = Str.strip s.
Proof.
  unfold Str.strip at 1. rewrite lstrip_id by apply strip_no_leading.
  unfold Str.strip. apply rstrip_idem.
Qed.

(** A text that ends with a character that is not white space. *)
Lemma rstrip_app_id a b :
  b <> "" -> Str.rstrip b = b -> Str.rstrip (a ++ b) = a ++ b.
Proof.
  intros N R. induction a as [|x a IH]; [exact R|].
  cbn [append Str.rstrip]. rewrite IH.
  destruct (a ++ b) eqn:E; [|reflexivity].
  destruct a; simpl in E; [contradiction|discriminate].
Qed.

Lemma strip_after_space v : Str.strip (" " ++ v) = Str.strip v.
Proof. reflexivity. Qed.

(** *** The shape of a parsed request *)

Lemma set_Forall (P : string * string -> Prop) d k v :
  Forall P d -> P (k, v) -> Forall P (Dict.set d k v).
Proof.
  intros F H. induction d as [|[k' v'] d IH]; simpl.
  - repeat constructor. exact H.
  - inversion F; subst. destruct (String.eqb_spec k' k) as [->|N].
    + constructor; assumption.
    + constructor; auto.
Qed.

Lemma parse_header_line_good h line :
  free NL line -> free CRc line ->
  Forall good_entry h -> Forall good_entry (parse_header_line h line).
Proof.
  intros FN FC F. unfold parse_header_line.
  destruct (split_colon line) as [[k v]|] eqn:E; [|assumption].
  destruct (split_colon_free NL _ _ _ E) as [Fc Fn].
  destruct (split_colon_free CRc _ _ _ E) as [_ Fr].
  destruct (Fn FN), (Fr FC).
  apply set_Forall; [assumption|].
  unfold good_entry. simpl.
  repeat split; try apply free_strip; try apply strip_idem; assumption.
Qed.

Lemma parse_headers_good lines h :
  Forall (fun l => free NL l /\ free CRc l) lines ->
  Forall good_entry h -> Forall good_entry (fold_left parse_header_line lines h).
Proof.
  revert h. induction lines as [|l lines IH]; intros h FL F; [assumption|].
  inversion FL as [|? ? [FN FC] FL']; subst. simpl.
  apply IH; [assumption|]. now apply parse_header_line_good.
Qed.

Lemma partition_pieces x s sep :
  free x s ->
  free x (fst (fst (Str.partition s sep))) /\ free x (snd (Str.partition s sep)).
Proof.
  intros F. unfold Str.partition. destruct (Str.find sep s); simpl.
  - split; [now apply free_take|now apply free_drop].
  - split; [assumption|exact I].
Qed.

Lemma split_head_no_leading c s :
  no_leading_space s ->
  match Str.split c s with
  | h :: _ => no_leading_space h
  | [] => True
  end.
Proof.
  destruct s as [|a s]; simpl; [trivial|]. intros E.
  destruct (Ascii.eqb a c); [exact I|].
  destruct (Str.split c s); exact E.
Qed.

(** What [_parse_http_request] returns: a method and a path without
    space or line break, the method without leading white space; header
    names without colon, names and values on one line and stripped; a
    stripped body. *)
Lemma parse_shape text m pa hs b :
  _parse_http_request text = Return (m, pa, hs, b) ->
  (good_token m /\ no_leading_space m)
  /\ good_token pa
  /\ Forall good_entry hs
  /\ (free CRc b /\ Str.strip b = b).
Proof.
  unfold _parse_http_request.
  pose proof (normalize_free text) as FC.
  pose proof (partition_pieces CRc _ BLANK FC) as [FCh FCb].
  change (Str.LF ++ Str.LF) with BLANK.
  destruct (Str.partition (normalize_newlines text) BLANK) as [[hp sep] body].
  simpl in FCh, FCb.
  pose proof (split_pieces NL NL hp (or_introl eq_refl)) as LN.
  pose proof (split_pieces NL CRc hp (or_intror FCh)) as LC.
  destruct (Str.split NL hp) as [|line0 rest]; [discriminate|].
  inversion LN as [|? ? N0 LN']; subst. inversion LC as [|? ? C0 LC']; subst.
  pose proof (split_pieces SPACE SPACE (Str.strip line0) (or_introl eq_refl)) as PS.
  pose proof (split_pieces SPACE NL (Str.strip line0)
                (or_intror (free_strip _ _ N0))) as PN.
  pose proof (split_pieces SPACE CRc (Str.strip line0)
                (or_intror (free_strip _ _ C0))) as PC.
  pose proof (split_head_no_leading SPACE _ (strip_no_leading line0)) as PL.
  intros E. injection E as <- <- <- <-.
  split; [|split; [|split]].
  - destruct (Str.split SPACE (Str.strip line0)) as [|p0 ps].
    + unfold good_token. simpl. repeat split; discriminate.
    + inversion PS; inversion PN; inversion PC; subst.
      unfold good_token. auto.
  - destruct (Str.split SPACE (Str.strip line0)) as [|p0 [|p1 ps]];
      try (unfold good_token; simpl; repeat split; discriminate).
    inversion PS as [|? ? _ PS']; inversion PN as [|? ? _ PN'];
      inversion PC as [|? ? _ PC']; subst.
    inversion PS'; inversion PN'; inversion PC'; subst.
    unfold good_token. auto.
  - apply parse_headers_good; [|constructor].
    clear - LN' LC'. induction rest as [|l rest IH]; [constructor|].
    inversion LN'; inversion LC'; subst. constructor; auto.
  - split; [now apply free_strip|apply strip_idem].
Qed.

(** *** Parsing what [build] writes *)

Lemma free_terminated x eol ls :
  free x eol -> Forall (free x) ls -> free x (terminated eol ls).
Proof.
  intros Fe F. induction F as [|l ls Fl F IH]; [exact I|].
  simpl. rewrite !free_app. auto.
Qed.

Lemma scan_CRLF_free_app a s :
  free CRc a ->
  Str.replace_scan Str.CRLF Str.LF 0 (a ++ s)
  = a ++ Str.replace_scan Str.CRLF Str.LF 0 s.
Proof. exact (replace_scan_free_app CRc Str.LF Str.LF a s). Qed.

Lemma scan_CRLF_free s :
  free CRc s -> Str.replace_scan Str.CRLF Str.LF 0 s = s.
Proof. exact (replace_scan_free CRc Str.LF Str.LF s). Qed.

Lemma scan_CR_free s :
  free CRc s -> Str.replace_scan Str.CR Str.LF 0 s = s.
Proof. exact (replace_scan_free CRc "" Str.LF s). Qed.

(** [text.replace("\r\n", "\n").replace("\r", "\n")] turns the line ends
    of [build] into line breaks and changes nothing else. *)
Lemma normalize_terminated ls b :
  Forall (free CRc) ls -> free CRc b ->
  normalize_newlines (terminated Str.CRLF ls ++ Str.CRLF ++ b)
  = terminated Str.LF ls ++ Str.LF ++ b.
Proof.
  intros F Fb.
  change (normalize_newlines (terminated Str.CRLF ls ++ Str.CRLF ++ b))
    with (Str.replace_scan Str.CR Str.LF 0
            (Str.replace_scan Str.CRLF Str.LF 0
               (terminated Str.CRLF ls ++ Str.CRLF ++ b))).
  assert (E : Str.replace_scan Str.CRLF Str.LF 0
                (terminated Str.CRLF ls ++ Str.CRLF ++ b)
              = terminated Str.LF ls ++ Str.LF ++ b).
  { induction F as [|l ls Fl F IH].
    - change (terminated Str.CRLF [] ++ Str.CRLF ++ b) with (Str.CRLF ++ b).
      rewrite replace_CRLF_here. now rewrite scan_CRLF_free.
    - change (terminated Str.CRLF (l :: ls))
        with (l ++ Str.CRLF ++ terminated Str.CRLF ls).
      rewrite !sapp_assoc.
      rewrite scan_CRLF_free_app by assumption.
      rewrite replace_CRLF_here. rewrite IH.
      change (terminated Str.LF (l :: ls))
        with (l ++ Str.LF ++ terminated Str.LF ls).
      now rewrite !sapp_assoc. }
  rewrite E. apply scan_CR_free.
  rewrite !free_app. repeat split; try assumption.
  - apply free_terminated; [|assumption]. simpl. split; [discriminate|exact I].
  - discriminate.
Qed.

Lemma terminated_cons_app eol l ls s :
  terminated eol (l :: ls) ++ s = l ++ eol ++ terminated eol ls ++ s.
Proof. simpl. now rewrite !sapp_assoc. Qed.

Lemma partition_blank_here b :
  Str.partition (Str.LF ++ Str.LF ++ b) BLANK = ("", BLANK, b).
Proof. reflexivity. Qed.

Lemma partition_after_break s :
  Str.startswith Str.LF s = false ->
  Str.partition (Str.LF ++ s) BLANK
  = (Str.LF ++ fst (fst (Str.partition s BLANK)),
     snd (fst (Str.partition s BLANK)), snd (Str.partition s BLANK)).
Proof.
  intros H. change (Str.LF ++ s) with (String NL s).
  rewrite partition_cons; [reflexivity|].
  change (Str.startswith BLANK (String NL s))
    with (Ascii.eqb NL NL && Str.startswith Str.LF s).
  now rewrite H, andb_false_r.
Qed.

Lemma startswith_LF_line x l s :
  x <> NL -> Str.startswith Str.LF (String x l ++ s) = false.
Proof.
  intros N. change (Str.startswith Str.LF (String x l ++ s))
    with (Ascii.eqb NL x && true).
  destruct (Ascii.eqb_spec NL x) as [E|_]; [|reflexivity].
  destruct N. now rewrite <- E.
Qed.

(** The blank line that ends the header block is the first one. *)
Lemma partition_terminated l ls b :
  Forall (fun l => free NL l /\ l <> "") (l :: ls) ->
  Str.partition (terminated Str.LF (l :: ls) ++ Str.LF ++ b) BLANK
  = (String.concat Str.LF (l :: ls), BLANK, b).
Proof.
  revert l. induction ls as [|l2 ls IH]; intros l F.
  - inversion F as [|? ? [Fl _] _]; subst.
    rewrite terminated_cons_app. change (terminated Str.LF [] ++ Str.LF ++ b)
      with (Str.LF ++ b).
    rewrite partition_free_app by assumption.
    rewrite partition_blank_here. simpl. now rewrite sapp_nil_r.
  - inversion F as [|? ? [Fl _] F']; subst.
    specialize (IH l2 F').
    inversion F' as [|? ? [Fl2 N2] _]; subst.
    rewrite terminated_cons_app.
    rewrite partition_free_app by assumption.
    destruct l2 as [|x l2]; [contradiction|]. destruct Fl2 as [Nx Fl2].
    rewrite partition_after_break.
    + rewrite IH. cbn [fst snd].
      change (String.concat Str.LF (l :: String x l2 :: ls))
        with (l ++ Str.LF ++ String.concat Str.LF (String x l2 :: ls)).
      reflexivity.
    + rewrite terminated_cons_app. now apply startswith_LF_line.
Qed.

Lemma split_concat l ls :
  Forall (free NL) (l :: ls) ->
  Str.split NL (String.concat Str.LF (l :: ls)) = l :: ls.
Proof.
  revert l. induction ls as [|l2 ls IH]; intros l F.
  - inversion F; subst. simpl. now apply split_free.
  - inversion F as [|? ? Fl F']; subst.
    change (String.concat Str.LF (l :: l2 :: ls))
      with (l ++ String NL (String.concat Str.LF (l2 :: ls))).
    rewrite split_app by assumption. now rewrite IH.
Qed.

Lemma set_absent (d : Dict.t string) k v :
  ~ In k (Dict.keys d) -> Dict.set d k v = (d ++ [(k, v)])%list.
Proof.
  induction d as [|[k' v'] d IH]; simpl; [reflexivity|].
  intros N. destruct (String.eqb_spec k' k) as [E|_]; [tauto|].
  rewrite IH by tauto. reflexivity.
Qed.

Lemma parse_header_line_built h kv :
  good_entry kv ->
  parse_header_line h (header_line kv) = Dict.set h (fst kv) (snd kv).
Proof.
  intros [(Fc & _ & _ & Sk) (_ & _ & Sv)]. unfold parse_header_line, header_line.
  change (fst kv ++ ": " ++ snd kv) with (fst kv ++ String COLON (" " ++ snd kv)).
  rewrite split_colon_app by assumption.
  now rewrite strip_after_space, Sk, Sv.
Qed.

(** Parsing the header lines [build] writes gives the headers back, in
    their order. *)
Lemma parse_headers_built hs acc :
  Forall good_entry hs ->
  NoDup (Dict.keys (acc ++ hs)%list) ->
  fold_left parse_header_line (List.map header_line hs) acc = (acc ++ hs)%list.
Proof.
  revert acc. induction hs as [|[k v] hs IH]; intros acc F ND.
  - simpl. now rewrite app_nil_r.
  - inversion F as [|? ? G F']; subst. simpl.
    rewrite parse_header_line_built by assumption. simpl.
    assert (N : ~ In k (Dict.keys acc)).
    { unfold Dict.keys in *. rewrite map_app in ND. simpl in ND.
      apply NoDup_remove_2 in ND. intros I. apply ND, in_or_app. auto. }
    rewrite set_absent by assumption.
    rewrite IH; [now rewrite <- app_assoc|assumption|].
    now rewrite <- app_assoc.
Qed.

Lemma request_line_strip m pa :
  m <> "" -> no_leading_space m ->
  Str.strip (request_line m pa) = request_line m pa.
Proof.
  intros N L. unfold Str.strip, request_line.
  rewrite lstrip_id.
  - rewrite <- !sapp_assoc. now apply rstrip_app_id.
  - destruct m; [contradiction|exact L].
Qed.

Lemma request_line_split m pa :
  free SPACE m -> free SPACE pa ->
  Str.split SPACE (request_line m pa) = [m; pa; "HTTP/1.1"].
Proof.
  intros Fm Fp. unfold request_line.
  change (m ++ " " ++ pa ++ " HTTP/1.1")
    with (m ++ String SPACE (pa ++ String SPACE "HTTP/1.1")).
  now rewrite !split_app by assumption.
Qed.

Lemma free_request_line x m pa :
  free x " HTTP/1.1" -> free x m -> free x pa -> free x (request_line m pa).
Proof.
  intros Fl Fm Fp. unfold request_line. rewrite !free_app.
  split; [assumption|]. split; [split; [exact (proj1 Fl)|exact I]|].
  split; assumption.
Qed.

Lemma free_header_lines x hs :
  free x ": " ->
  Forall (fun kv => free x (fst kv) /\ free x (snd kv)) hs ->
  Forall (free x) (List.map header_line hs).
Proof.
  intros Fl F. induction F as [|kv hs' [Fk Fv] F IH]; simpl; constructor;
    [|exact IH].
  unfold header_line. rewrite !free_app. auto.
Qed.

Lemma parse_build m pa hs b :
  m <> "" -> good_token m /\ no_leading_space m -> good_token pa ->
  Forall good_entry hs -> NoDup (Dict.keys hs) ->
  free CRc b /\ Str.strip b = b ->
  _parse_http_request (build (m, pa, hs, b)) = Return (m, pa, hs, b).
Proof.
  intros Nm [(Sm & Nlm & Cm) Lm] (Sp & Nlp & Cp) G ND [Cb Sb].
  assert (LC : Forall (free CRc) (request_line m pa :: List.map header_line hs)).
  { constructor.
    - apply free_request_line; try assumption.
      simpl; repeat split; discriminate.
    - apply free_header_lines; [simpl; repeat split; discriminate|].
      eapply Forall_impl; [|exact G].
      intros kv [(_ & _ & ? & _) (_ & ? & _)]. auto. }
  assert (LN : Forall (free NL) (request_line m pa :: List.map header_line hs)).
  { constructor.
    - apply free_request_line; try assumption.
      simpl; repeat split; discriminate.
    - apply free_header_lines; [simpl; repeat split; discriminate|].
      eapply Forall_impl; [|exact G].
      intros kv [(_ & ? & _ & _) (? & _ & _)]. auto. }
  assert (LE : Forall (fun l => free NL l /\ l <> "")
                      (request_line m pa :: List.map header_line hs)).
  { inversion LN as [|? ? L0 LN']; subst. constructor.
    - split; [assumption|]. unfold request_line.
      destruct m; [contradiction|discriminate].
    - clear - LN'. induction hs as [|kv hs IH]; simpl in *; constructor.
      + inversion LN'; subst. split; [assumption|].
        unfold header_line. destruct (fst kv); discriminate.
      + inversion LN'; subst. auto. }
  unfold _parse_http_request, build.
  rewrite normalize_terminated by assumption.
  change (Str.LF ++ Str.LF) with BLANK.
  rewrite partition_terminated by assumption.
  rewrite split_concat by assumption.
  rewrite request_line_strip by assumption.
  rewrite request_line_split by assumption.
  rewrite (parse_headers_built hs []) by assumption.
  simpl. now rewrite Sb.
Qed.

(** Without a method token the round trip fails: the empty text parses to
    the method [""] and the path [/], and what [build] writes for them
    parses to the method [/]. *)
Example round_trip_needs_method :
  _parse_http_request (build ("", "/", [], ""))
  = Return ("/", "HTTP/1.1", [], "").
Proof. reflexivity. Qed.

(** ** Further properties of the codec *)

(** X1: [_parse_http_request] returns a result for every text: [lines[0]]
    and [parts[0]] always exist, no text makes it raise. *)
Theorem parse_never_raises :
  forall text, exists m pa hs b,
    _parse_http_request text = Return (m, pa, hs, b).
Proof.
  intros text. destruct (parse_total text) as ([[[m pa] hs] b] & E). eauto.
Qed.

(** X2: the headers of a parsed request have pairwise different names;
    every name and value is stripped and on one line, and no name holds a
    colon. *)
Theorem parsed_headers_shape :
  forall text m pa hs b,
    _parse_http_request text = Return (m, pa, hs, b) ->
    NoDup (Dict.keys hs)
    /\ forall k v, In (k, v) hs ->
         Str.strip k = k /\ Str.strip v = v
         /\ free COLON k /\ free NL k /\ free NL v.
Proof.
  intros text m pa hs b P. split.
  - eapply parse_headers_unique; eauto.
  - destruct (parse_shape _ _ _ _ _ P) as (_ & _ & G & _).
    intros k v I. rewrite Forall_forall in G.
    destruct (G _ I) as [(Fc & Fn & _ & Sk) (Fv & _ & Sv)]. simpl in *. auto.
Qed.

Lemma parsed_headers_shape_witness :
  NoDup (Dict.keys [ ("Host", "a.test"); ("Content-Length", "9");
                     ("content-type", "text/plain") ]).
Proof.
  exact (proj1 (parsed_headers_shape login_text "POST" "/login"
                  [ ("Host", "a.test"); ("Content-Length", "9");
                    ("content-type", "text/plain") ]
                  "user=bob" eq_refl)).
Defined.

(** X3: the method and the path of a parsed request hold no space and no
    line break, the method begins with no white space, and the body is
    stripped. *)
Theorem parsed_tokens_shape :
  forall text m pa hs b,
    _parse_http_request text = Return (m, pa, hs, b) ->
    (free SPACE m /\ free NL m /\ no_leading_space m)
    /\ (free SPACE pa /\ free NL pa)
    /\ Str.strip b = b.
Proof.
  intros text m pa hs b P.
  destruct (parse_shape _ _ _ _ _ P)
    as ([(Sm & Nm & _) Lm] & (Sp & Np & _) & _ & (_ & Sb)).
  auto.
Qed.

Lemma parsed_tokens_shape_witness :
  Str.strip "user=bob" = "user=bob".
Proof.
  exact (proj2 (proj2 (parsed_tokens_shape login_text "POST" "/login"
                         [ ("Host", "a.test"); ("Content-Length", "9");
                           ("content-type", "text/plain") ]
                         "user=bob" eq_refl))).
Defined.

Lemma normalize_id s : free CRc s -> normalize_newlines s = s.
Proof.
  intros F.
  change (normalize_newlines s)
    with (Str.replace_scan Str.CR Str.LF 0
            (Str.replace_scan Str.CRLF Str.LF 0 s)).
  now rewrite scan_CRLF_free, scan_CR_free.
Qed.

(** X4: line ends are normalized once and for all: parsing a text whose
    line ends were already normalized gives what parsing the text gives. *)
Theorem parse_normalized :
  forall text,
    _parse_http_request (normalize_newlines text) = _parse_http_request text.
Proof.
  intros text. unfold _parse_http_request.
  now rewrite (normalize_id _ (normalize_free text)).
Qed.

Lemma scan_LF_cons x s :
  Str.replace_scan Str.LF Str.CRLF 0 (String x s)
  = if Ascii.eqb NL x
    then Str.CRLF ++ Str.replace_scan Str.LF Str.CRLF 0 s
    else String x (Str.replace_scan Str.LF Str.CRLF 0 s).
Proof.
  change (Str.replace_scan Str.LF Str.CRLF 0 (String x s))
    with (if Ascii.eqb NL x && true
          then Str.CRLF ++ Str.replace_scan Str.LF Str.CRLF 0 s
          else String x (Str.replace_scan Str.LF Str.CRLF 0 s)).
  now rewrite andb_true_r.
Qed.

Lemma scan_LF_to_CRLF_back s :
  free CRc s ->
  Str.replace_scan Str.CRLF Str.LF 0 (Str.replace_scan Str.LF Str.CRLF 0 s) = s.
Proof.
  induction s as [|x s IH]; [reflexivity|]. intros [N F].
  rewrite scan_LF_cons. destruct (Ascii.eqb_spec NL x) as [E|Nx].
  - subst x. rewrite replace_CRLF_here, IH by assumption. reflexivity.
  - change (String x (Str.replace_scan Str.LF Str.CRLF 0 s))
      with (String x "" ++ Str.replace_scan Str.LF Str.CRLF 0 s).
    rewrite scan_CRLF_free_app by (simpl; auto).
    rewrite IH by assumption. reflexivity.
Qed.

(** X5: a text written with line breaks only and the same text written
    with CRLF line ends parse to the same request. *)
Theorem parse_crlf_as_lf :
  forall text,
    free CRc text ->
    _parse_http_request (Str.replace text Str.LF Str.CRLF)
    = _parse_http_request text.
Proof.
  intros text F. unfold _parse_http_request.
  assert (E : normalize_newlines (Str.replace text Str.LF Str.CRLF) = text).
  { change (normalize_newlines (Str.replace text Str.LF Str.CRLF))
      with (Str.replace_scan Str.CR Str.LF 0
              (Str.replace_scan Str.CRLF Str.LF 0
                 (Str.replace_scan Str.LF Str.CRLF 0 text))).
    now rewrite scan_LF_to_CRLF_back, scan_CR_free. }
  now rewrite E, normalize_id.
Qed.

Lemma parse_crlf_as_lf_witness :
  _parse_http_request (Str.replace login_text Str.LF Str.CRLF)
  = _parse_http_request login_text.
Proof.
  apply parse_crlf_as_lf. vm_compute. repeat split; discriminate.
Defined.

(** X6: a request line of a single token: the token is the method and the
    path is the default [/]; with no other line there are no headers and
    the body is empty. *)
Theorem parse_single_token :
  forall line,
    free NL line -> free CRc line -> free SPACE (Str.strip line) ->
    _parse_http_request line = Return (Str.strip line, "/", [], "").
Proof.
  intros line FN FC FS. unfold _parse_http_request.
  rewrite normalize_id by assumption.
  change (Str.LF ++ Str.LF) with BLANK.
  rewrite <- (sapp_nil_r line) at 1.
  rewrite partition_free_app by assumption.
  change (Str.partition "" BLANK) with ("", "", "").
  cbn [fst snd]. rewrite sapp_nil_r.
  rewrite split_free by assumption.
  rewrite (split_free SPACE) by assumption. reflexivity.
Qed.

Lemma parse_single_token_witness :
  _parse_http_request " OPTIONS " = Return ("OPTIONS", "/", [], "").
Proof.
  apply (parse_single_token " OPTIONS "); vm_compute; repeat split; discriminate.
Defined.

(** X7: [_pop_header] is a pop of the first match.  When no name matches
    up to case it returns [None] and leaves the headers as they are; when
    the first matching entry is [(k, v)] it returns [v] and leaves the
    other entries, in their order. *)
Theorem pop_header_first_match :
  forall name,
    (forall h, (forall k, In k (Dict.keys h) -> header_named name k = false) ->
               _pop_header h name = (None, h))
    /\ (forall l1 k v l2,
          (forall k', In k' (Dict.keys l1) -> header_named name k' = false) ->
          header_named name k = true ->
          _pop_header (l1 ++ (k, v) :: l2)%list name = (Some v, (l1 ++ l2)%list)).
Proof.
  intros name. split.
  - induction h as [|[k0 v0] h IH]; intros H; [reflexivity|].
    rewrite pop_header_cons, (H k0) by (simpl; auto).
    rewrite IH by (intros k I; apply H; simpl; auto). reflexivity.
  - induction l1 as [|[k0 v0] l1 IH]; intros k v l2 H M.
    + simpl. now rewrite pop_header_cons, M.
    + simpl. rewrite pop_header_cons, (H k0) by (simpl; auto).
      rewrite IH by (try assumption; intros k' I; apply H; simpl; auto).
      reflexivity.
Qed.

Lemma pop_header_first_match_witness :
  _pop_header [("Accept", "*/*"); ("HOST", "a.test"); ("host", "b.test")] "Host"
  = (Some "a.test", [("Accept", "*/*"); ("host", "b.test")])
  /\ _pop_header [("Accept", "*/*")] "Host" = (None, [("Accept", "*/*")]).
Proof.
  split.
  - apply (proj2 (pop_header_first_match "Host") [("Accept", "*/*")] "HOST"
                 "a.test" [("host", "b.test")]).
    + intros k' [<-|[]]. reflexivity.
    + reflexivity.
  - apply (proj1 (pop_header_first_match "Host")).
    intros k [<-|[]]. reflexivity.
Defined.

(** ** Further properties of [request] and [repeat] *)

Lemma find_empty s : Str.find "" s = Some 0.
Proof. destruct s; reflexivity. Qed.

Lemma replace_not_found s old new :
  Str.find old s = None -> Str.replace s old new = s.
Proof.
  destruct old as [|o old]; [rewrite find_empty; discriminate|].
  unfold Str.replace. induction s as [|c s IH]; [reflexivity|].
  cbn [Str.find Str.replace_scan].
  destruct (Str.startswith (String o old) (String c s)); [discriminate|].
  destruct (Str.find (String o old) s); [discriminate|].
  intros _. now rewrite IH.
Qed.

(** X8: substitutions that match nothing change nothing: when no [old]
    text of the replacements occurs in the captured request text, [repeat]
    prepares the request it prepares without replacements. *)
Theorem substitution_without_match :
  forall py_str item text id reps overrides body,
    (forall old new, In (old, new) reps -> Str.find old text = None) ->
    prepare py_str item (JStr text) id
            {| replacements := Some reps; add_headers := overrides;
               new_body := body |}
    = prepare py_str item (JStr text) id
              {| replacements := None; add_headers := overrides;
                 new_body := body |}.
Proof.
  intros py_str item text id reps overrides body H.
  assert (E : substitute text (Some reps) = text).
  { simpl. induction reps as [|[old new] reps IH]; [reflexivity|].
    simpl. rewrite replace_not_found by (eapply H; simpl; eauto).
    apply IH. intros o n I. eapply H. simpl. eauto. }
  unfold prepare. cbn [as_str replacements]. rewrite E. reflexivity.
Qed.

Lemma substitution_without_match_witness :
  prepare no_py_str login_item (JStr login_text) 7
          {| replacements := Some [("Bearer old", "Bearer new")];
             add_headers := None; new_body := None |}
  = prepare no_py_str login_item (JStr login_text) 7
            {| replacements := None; add_headers := None; new_body := None |}.
Proof.
  apply substitution_without_match.
  intros old new [E|[]]. injection E as <- <-. reflexivity.
Defined.

Lemma get_pop_other (h : Dict.t string) name k :
  header_named name k = false ->
  Dict.get (snd (_pop_header h name)) k = Dict.get h k.
Proof.
  intros N. induction h as [|[k0 v0] h IH]; [reflexivity|].
  rewrite pop_header_cons. destruct (header_named name k0) eqn:M; simpl.
  - destruct (String.eqb_spec k0 k) as [E|_]; [congruence|reflexivity].
  - destruct (String.eqb_spec k0 k); [reflexivity|exact IH].
Qed.

Section MoreRuns.
Variable urlopen_get : string -> urlopen_outcome.
Variable requests_request : outbound -> requests_outcome.
Variable requests_installed : bool.
Variable urlencode : list (string * string) -> string.
Variable py_str : json -> string.

Local Notation "'Request'" := (request requests_request requests_installed).
Local Notation "'Repeat'" :=
  (repeat urlopen_get requests_request requests_installed urlencode py_str).

(** X9: [request] sends what the caller gave: every header of the caller
    with its value, the address as given, the method in upper case, the
    body encoded; the only header it may add is [X-Burp-MCP]. *)
Theorem request_sends_caller_headers :
  forall self method url headers body port max log rest r,
    fst (Request self method url headers body port max log) = (log ++ rest)%list ->
    In (RequestsRequest r) rest ->
    ob_url r = url /\ ob_method r = Str.upper method
    /\ ob_data r = option_map encode body
    /\ (forall h k v, headers = Some h -> Dict.get h k = Some v ->
                      Dict.get (ob_headers r) k = Some v)
    /\ (forall k, In k (Dict.keys (ob_headers r)) ->
                  k = "X-Burp-MCP"
                  \/ exists h, headers = Some h /\ In k (Dict.keys h)).
Proof.
  intros self method url headers body port max log rest r E I.
  destruct (request_transmits _ _ _ _ _ _ _ _ _ _ _ _ E I) as (_ & _ & ->).
  simpl. repeat split.
  - intros h k v -> G. unfold send_headers_of.
    destruct h as [|kv h]; [discriminate|].
    unfold Dict.mem. destruct (Dict.get (kv :: h) "X-Burp-MCP") eqn:GM;
      [exact G|].
    rewrite get_set_other; [exact G|]. intros ->. congruence.
  - intros k Ik. unfold send_headers_of in Ik.
    destruct headers as [[|kv h]|].
    + simpl in Ik. destruct Ik as [<-|[]]. now left.
    + destruct (Dict.mem (kv :: h) "X-Burp-MCP").
      * right. eauto.
      * apply In_keys_set in Ik. destruct Ik as [->|Ik]; [now left|].
        right. eauto.
    + simpl in Ik. destruct Ik as [<-|[]]. now left.
Qed.

(** X10: [repeat] forwards the captured headers it does not manage: a
    header of the request parsed after the substitutions, not named [host],
    [content-length] or [transfer-encoding] up to case, not overridden and
    not [X-Burp-MCP], is transmitted with its captured value. *)
Theorem repeat_forwards_captured_headers :
  forall self id spec port max log rest r,
    fst (Repeat self id spec port max log) = (log ++ rest)%list ->
    In (RequestsRequest r) rest ->
    exists d text m pa hs b,
      urlopen_get (item_url self id) = UrlOk (JObj d)
      /\ Dict.get d "request_text" = Some (JStr text)
      /\ _parse_http_request (substitute text (replacements spec))
         = Return (m, pa, hs, b)
      /\ ob_method r = Str.upper m
      /\ forall k v,
           Dict.get hs k = Some v ->
           ~ In (Str.lower k) popped_names ->
           (forall a, add_headers spec = Some a -> ~ In k (Dict.keys a)) ->
           k <> "X-Burp-MCP" ->
           Dict.get (ob_headers r) k = Some v.
Proof.
  intros self id spec port max log rest r E I.
  destruct (repeat_transmits _ _ _ _ _ _ _ _ _ _ _ _ _ E I)
    as (item & rt & p & G & J & T & P & ->).
  destruct (prepare_inv _ _ _ _ _ _ P)
    as (text & m & pa & hs & b & d & u & host
        & -> & Hparse & -> & _ & _ & Hm & _ & Hh & _).
  exists d, text, m, pa, hs, b.
  split; [exact G|]. split.
  { simpl in J. injection J as J.
    destruct (Dict.get d "request_text") as [x|]; [now subst|].
    rewrite <- J in T. discriminate. }
  split; [exact Hparse|]. split; [simpl; now rewrite Hm|].
  intros k v Gk Np Na Nx. simpl.
  assert (GM : Dict.get (p_headers p) "X-Burp-MCP"
               = Some ("repeat:" ++ Str.of_Z id))
    by (rewrite Hh; apply get_set_same).
  rewrite (send_headers_of_marked _ _ GM), Hh.
  rewrite get_set_other by assumption.
  assert (Gs : Dict.get (stripped hs) k = Some v).
  { unfold stripped. rewrite !get_pop_other; [exact Gk| | |];
      unfold header_named; apply String.eqb_neq; intros Ek; apply Np;
      rewrite Ek; simpl; tauto. }
  unfold overridden. destruct (add_headers spec) as [a|] eqn:Ha; [|exact Gs].
  rewrite get_update_not_In by (now apply Na). exact Gs.
Qed.

(** X11: the events of a run of [repeat]: the fetch of the item, then at
    most one transmission and nothing else.  When the store does not
    answer with the item, the fetch is the only event. *)
Theorem repeat_events :
  forall self id spec port max log,
    exists rest,
      fst (Repeat self id spec port max log)
      = (log ++ UrlopenGet (item_url self id) :: rest)%list
      /\ (rest = [] \/ exists r, rest = [RequestsRequest r])
      /\ ((forall item, urlopen_get (item_url self id) <> UrlOk item) ->
          rest = []).
Proof.
  intros self id spec port max log.
  destruct (repeat_log urlopen_get requests_request requests_installed
              urlencode py_str self id spec port max log) as (rest & E & C).
  exists rest. split; [exact E|]. split.
  - destruct C as [->|(item & rt & p & _ & _ & _ & _ & ->)]; eauto.
  - intros H. destruct C as [->|(item & rt & p & G & _)]; [reflexivity|].
    destruct (H item G).
Qed.

(** X12: what [repeat] returns when it returns: the result of its one
    transmission, that is the status code and the headers of the response,
    its text cut at [max_response_body], the address and the method as
    transmitted, and the identifier of the source item under [item_id]. *)
Theorem repeat_result :
  forall self id spec port max log v,
    snd (Repeat self id spec port max log) = Return v ->
    exists r status rh text,
      fst (Repeat self id spec port max log)
      = (log ++ [UrlopenGet (item_url self id); RequestsRequest r])%list
      /\ requests_request r = Response status rh text
      /\ v = JObj [ ("status_code", JNum status);
                    ("headers", JObj (List.map (fun kv => (fst kv, JStr (snd kv))) rh));
                    ("body", JStr (truncate_body text max));
                    ("url", JStr (ob_url r));
                    ("method", JStr (ob_method r));
                    ("item_id", JNum id) ].
Proof.
  intros self id spec port max log v.
  unfold repeat, bind. rewrite get_untruncated.
  destruct (urlopen_get (item_url self id)) as [item| | | |]; try discriminate.
  unfold lift.
  destruct (json_get item "request_text" (JStr "")) as [rt|e]; [|discriminate].
  destruct (truthy rt); simpl; [|discriminate].
  destruct (prepare py_str item rt id spec) as [p|e]; [|discriminate].
  unfold request. destruct requests_installed; simpl; [|discriminate].
  destruct (requests_request _) as [status rh text|msg] eqn:R; simpl;
    [|discriminate].
  intros E. injection E as <-.
  eexists _, status, rh, text. rewrite <- app_assoc. simpl.
  split; [reflexivity|]. split; [exact R|reflexivity].
Qed.

End MoreRuns.

Lemma request_sends_caller_headers_witness :
  ob_url (request_call "get" "http://a.test/" (Some [("Accept", "*/*")]) None 8080)
  = "http://a.test/"
  /\ Dict.get (ob_headers (request_call "get" "http://a.test/"
                                        (Some [("Accept", "*/*")]) None 8080))
              "Accept" = Some "*/*".
Proof.
  destruct (request_sends_caller_headers sample_proxy true _client "get"
              "http://a.test/" (Some [("Accept", "*/*")]) None 8080%Z 4000%Z []
              _ _ eq_refl (or_introl eq_refl)) as (H1 & _ & _ & H4 & _).
  split; [exact H1|]. exact (H4 _ "Accept" "*/*" eq_refl eq_refl).
Defined.

Lemma repeat_forwards_captured_headers_witness :
  In (RequestsRequest login_call) (fst (sample_repeat 7 no_mutation 4000))
  /\ Dict.get (ob_headers login_call) "content-type" = Some "text/plain".
Proof.
  assert (I : In (RequestsRequest login_call)
                 (fst (sample_repeat 7 no_mutation 4000)))
    by (right; left; reflexivity).
  split; [exact I|].
  destruct (repeat_forwards_captured_headers sample_store sample_proxy true
              no_urlencode no_py_str _client 7%Z no_mutation 8080%Z 4000%Z []
              _ login_call eq_refl I)
    as (d & text & m & pa & hs & b & G & T & P & _ & H).
  injection G as <-. injection T as <-. injection P as <- <- <- <-.
  apply H.
  - reflexivity.
  - simpl. intros [E|[E|[E|[]]]]; discriminate.
  - intros a E. discriminate.
  - discriminate.
Defined.

Lemma repeat_result_witness :
  exists r status rh text,
    fst (sample_repeat 7 no_mutation 10)
    = [UrlopenGet (item_url _client 7); RequestsRequest r]
    /\ sample_proxy r = Response status rh text
    /\ JObj [ ("status_code", JNum 200);
              ("headers", JObj [("Content-Type", JStr "text/plain")]);
              ("body", JStr (truncate_body "abcdefghijklmnopqrstuvwxy" 10));
              ("url", JStr "https://a.test/login");
              ("method", JStr "POST");
              ("item_id", JNum 7) ]
       = JObj [ ("status_code", JNum status);
                ("headers", JObj (List.map (fun kv => (fst kv, JStr (snd kv))) rh));
                ("body", JStr (truncate_body text 10));
                ("url", JStr (ob_url r));
                ("method", JStr (ob_method r));
                ("item_id", JNum 7) ].
Proof.
  exact (repeat_result sample_store sample_proxy true no_urlencode no_py_str
           _client 7%Z no_mutation 8080%Z 10%Z [] _ eq_refl).
Defined.

(** ** Further properties of the client methods and the tools *)

Lemma of_Z_not_empty n : Str.of_Z n <> "".
Proof.
  unfold Str.of_Z. destruct (Z.to_int n) as [d|d]; simpl; [|discriminate].
  destruct d; discriminate.
Qed.

Lemma In_filter_params ps k v :
  In (k, v) (filter_params ps)
  <-> exists p, In (k, p) ps /\ param_filter (k, p) = Some (k, v).
Proof.
  induction ps as [|[k0 p0] ps IH]; simpl.
  - split; [tauto|]. intros (p & [] & _).
  - destruct (param_filter (k0, p0)) as [[k1 v1]|] eqn:F.
    + assert (k1 = k0)
        by (unfold param_filter in F; simpl in F; destruct p0;
            [discriminate|destruct (s =? ""); [discriminate|]|];
            now injection F).
      subst k1. simpl. rewrite IH. split.
      * intros [E|(p & I & Fp)]; [|eauto].
        injection E as <- <-. eauto.
      * intros (p & [E|I] & Fp); [|eauto].
        injection E as <- <-. left. congruence.
    + rewrite IH. split.
      * intros (p & I & Fp). eauto.
      * intros (p & [E|I] & Fp); [|eauto].
        injection E as <- <-. congruence.
Qed.

(** X13: the query [_get] sends holds the parameters whose value is
    neither [None] nor the empty string, and only those; no parameter is
    ever sent with an empty value. *)
Theorem sent_parameters :
  forall ps k,
    (forall v, In (k, v) (filter_params ps) ->
               v <> ""
               /\ exists p, In (k, p) ps /\ p <> PNone /\ p <> PStr "")
    /\ (forall p, In (k, p) ps -> p <> PNone -> p <> PStr "" ->
                  In k (List.map fst (filter_params ps))).
Proof.
  intros ps k. split.
  - intros v I. apply In_filter_params in I. destruct I as (p & I & F).
    unfold param_filter in F. simpl in F. destruct p as [|s|n].
    + discriminate.
    + destruct (String.eqb_spec s "") as [E|N]; [discriminate|].
      injection F as <-. split; [assumption|].
      exists (PStr s). repeat split; try assumption; congruence.
    + injection F as <-. split; [apply of_Z_not_empty|].
      exists (PInt n). repeat split; try assumption; discriminate.
  - intros p I N1 N2.
    assert (exists v, param_filter (k, p) = Some (k, v)) as (v & F).
    { unfold param_filter. simpl. destruct p as [|s|n]; [congruence| |eauto].
      destruct (String.eqb_spec s "") as [E|N]; [subst; congruence|eauto]. }
    apply in_map_iff. exists (k, v). split; [reflexivity|].
    apply In_filter_params. eauto.
Qed.

Lemma sent_parameters_witness :
  In "limit" (List.map fst (filter_params [ ("host", PStr ""); ("mime", PNone);
                                            ("limit", PInt 0) ])).
Proof.
  apply (proj2 (sent_parameters [ ("host", PStr ""); ("mime", PNone);
                                  ("limit", PInt 0) ] "limit") (PInt 0)).
  - simpl. tauto.
  - discriminate.
  - discriminate.
Defined.

Lemma rstrip_char_decomp s :
  exists n, s = Str.rstrip_char "/" s ++ slashes n.
Proof.
  induction s as [|c s [n IH]]; [exists 0; reflexivity|].
  simpl. destruct (Str.rstrip_char "/" s) as [|y r] eqn:R.
  - simpl in IH. destruct (Ascii.eqb_spec c "/") as [->|N].
    + exists (S n). simpl. now rewrite <- IH.
    + exists n. simpl. now rewrite <- IH.
  - exists n. simpl. simpl in IH. now rewrite <- IH.
Qed.

Lemma rstrip_char_no_trailing s t : Str.rstrip_char "/" s <> t ++ "/".
Proof.
  revert t. induction s as [|c s IH]; intros t.
  - simpl. destruct t; discriminate.
  - simpl. destruct (Str.rstrip_char "/" s) as [|y r] eqn:R.
    + destruct (Ascii.eqb_spec c "/") as [->|N].
      * destruct t; discriminate.
      * destruct t as [|x t]; simpl; intros E.
        -- injection E as E1. congruence.
        -- injection E as _ E2. destruct t; discriminate.
    + destruct t as [|x t]; simpl; intros E.
      * discriminate.
      * injection E as _ E2. exact (IH t E2).
Qed.

(** X14: [BurpClient(base_url)] keeps the base address without its
    trailing slashes: what it stores is the given address less a run of
    slashes at its end, and does not end with a slash. *)
Theorem client_base_url_has_no_trailing_slash :
  forall base tmo,
    (exists n, base = base_url (BurpClient_init base tmo) ++ slashes n)
    /\ forall s, base_url (BurpClient_init base tmo) <> s ++ "/".
Proof.
  intros base tmo. split.
  - apply rstrip_char_decomp.
  - intros s. apply rstrip_char_no_trailing.
Qed.

(** X15: [_build_url]: an item that is not a dictionary raises
    [AttributeError]; an item that records none of [https], [host],
    [port], [path] gives [http://:0]; and for an item with a [str] host
    and path and an [int] port, the port is left out exactly when it is
    the default of the scheme, 443 for [https] and 80 for [http]. *)
Theorem build_url_port :
  forall py_str,
    (forall item, (forall d, item <> JObj d) ->
                  _build_url py_str item = Raise AttributeError)
    /\ (forall d, Dict.get d "https" = None -> Dict.get d "host" = None ->
                  Dict.get d "port" = None -> Dict.get d "path" = None ->
                  _build_url py_str (JObj d) = Return "http://:0")
    /\ (forall d host port path,
          Dict.get d "host" = Some (JStr host) ->
          Dict.get d "port" = Some (JNum port) ->
          Dict.get d "path" = Some (JStr path) ->
          let https := match Dict.get d "https" with
                       | Some v => truthy v
                       | None => false
                       end in
          let scheme := if https then "https" else "http" in
          (port = (if https then 443 else 80)%Z ->
           _build_url py_str (JObj d) = Return (scheme ++ "://" ++ host ++ path))
          /\ (port <> (if https then 443 else 80)%Z ->
              _build_url py_str (JObj d)
              = Return (scheme ++ "://" ++ host ++ ":" ++ Str.of_Z port ++ path))).
Proof.
  intros py_str. split; [|split].
  - intros item H. destruct item; try reflexivity. destruct (H d eq_refl).
  - intros d H1 H2 H3 H4. unfold _build_url. rewrite H1, H2, H3, H4.
    reflexivity.
  - intros d host port path H2 H3 H4. unfold _build_url.
    rewrite H2, H3, H4. cbn [json_eq_int format_json].
    destruct (Dict.get d "https") as [v|]; cbn [truthy]; [destruct (truthy v)|];
      cbn [andb negb orb]; split; intros E.
    + subst port. reflexivity.
    + rewrite orb_false_r. apply Z.eqb_neq in E. now rewrite E.
    + subst port. reflexivity.
    + apply Z.eqb_neq in E. now rewrite E.
    + subst port. reflexivity.
    + apply Z.eqb_neq in E. now rewrite E.
Qed.

Lemma build_url_port_witness :
  _build_url no_py_str
             (JObj [ ("https", JBool true); ("host", JStr "a.test");
                     ("port", JNum 443); ("path", JStr "/login") ])
  = Return "https://a.test/login"
  /\ _build_url no_py_str
                (JObj [ ("host", JStr "a.test"); ("port", JNum 8080);
                        ("path", JStr "/") ])
     = Return "http://a.test:8080/".
Proof.
  split.
  - apply (proj1 (proj2 (proj2 (build_url_port no_py_str))
                   [ ("https", JBool true); ("host", JStr "a.test");
                     ("port", JNum 443); ("path", JStr "/login") ]
                   "a.test" 443%Z "/login" eq_refl eq_refl eq_refl)).
    reflexivity.
  - apply (proj2 (proj2 (proj2 (build_url_port no_py_str))
                   [ ("host", JStr "a.test"); ("port", JNum 8080);
                     ("path", JStr "/") ]
                   "a.test" 8080%Z "/" eq_refl eq_refl eq_refl)).
    discriminate.
Defined.

Lemma startswith_app a b : Str.startswith a (a ++ b) = true.
Proof.
  induction a as [|x a IH]; [reflexivity|].
  simpl. now rewrite Ascii.eqb_refl, IH.
Qed.

Lemma _safe_fst (m : M json) log : fst (_safe m log) = fst (m log).
Proof. unfold _safe. destruct (m log) as [l [v|[]]]; reflexivity. Qed.

Lemma _safe_not_RuntimeError (m : M json) log msg :
  snd (_safe m log) <> Raise (RuntimeError msg).
Proof. unfold _safe. destruct (m log) as [l [v|[]]]; discriminate. Qed.

Section MoreTools.
Variable urlopen_get : string -> urlopen_outcome.
Variable urlopen_post : string -> json -> urlopen_outcome.
Variable requests_request : outbound -> requests_outcome.
Variable requests_installed : bool.
Variable urlencode : list (string * string) -> string.
Variable py_str : json -> string.

Local Notation "'Run'" :=
  (run_tool urlopen_get urlopen_post requests_request requests_installed
            urlencode py_str).

Lemma _get_events self path params log :
  fst (_get urlopen_get urlencode self path params log)
  = (log ++ [UrlopenGet (query_url urlencode self path (filter_params params))])%list.
Proof.
  unfold _get, query_url.
  destruct (filter_params params); destruct (urlopen_get _); reflexivity.
Qed.

Lemma _post_events self path body log :
  fst (_post urlopen_post self path body log)
  = (log ++ [UrlopenPost (base_url self ++ path) body])%list.
Proof. unfold _post. destruct (urlopen_post _ _); reflexivity. Qed.

Lemma query_url_under self path ps :
  Str.startswith (base_url self) (query_url urlencode self path ps) = true.
Proof.
  unfold query_url. destruct ps; rewrite ?sapp_assoc; apply startswith_app.
Qed.

Lemma hosts_events self log :
  fst (hosts urlopen_get urlencode self log)
  = (log ++ [UrlopenGet (query_url urlencode self "/proxy/hosts" [])])%list.
Proof.
  unfold hosts, bind.
  pose proof (_get_events self "/proxy/hosts" [] log) as E.
  destruct (_get urlopen_get urlencode self "/proxy/hosts" [] log) as [l [v|e]];
    simpl in *; exact E.
Qed.

(** The events of a tool that only asks the store. *)
Lemma store_tool_events c log :
  is_burp_request c = false -> is_burp_repeat c = false ->
  exists ev, fst (Run c log) = (log ++ [ev])%list
             /\ store_event_under BASE_URL ev.
Proof.
  intros N1 N2. destruct c; try discriminate; simpl run_tool;
    unfold burp_health, burp_hosts, burp_search, burp_get_item,
           burp_repeater_latest, burp_send_to_repeater, burp_scope;
    rewrite _safe_fst.
  - unfold health. rewrite _get_events. eexists. split; [reflexivity|].
    apply (query_url_under _client).
  - rewrite hosts_events. eexists. split; [reflexivity|].
    apply (query_url_under _client).
  - unfold history. rewrite _get_events. eexists. split; [reflexivity|].
    apply (query_url_under _client).
  - unfold get. rewrite _get_events. eexists. split; [reflexivity|].
    apply (query_url_under _client).
  - unfold repeater_latest. rewrite _get_events. eexists.
    split; [reflexivity|]. apply (query_url_under _client).
  - unfold send_to_repeater, bind, ret. rewrite _post_events. eexists.
    split; [reflexivity|]. apply (startswith_app (base_url _client)).
  - unfold scope. rewrite _get_events. eexists. split; [reflexivity|].
    apply (query_url_under _client).
Qed.

(** X16: no registered tool raises [RuntimeError]: [_safe] turns every
    one into a returned result. *)
Theorem tools_never_raise_RuntimeError :
  forall c log msg,
    snd (run_tool urlopen_get urlopen_post requests_request requests_installed
                  urlencode py_str c log)
    <> Raise (RuntimeError msg).
Proof.
  intros c log msg. destruct c; simpl run_tool; apply _safe_not_RuntimeError.
Qed.

(** X17: a call of a tool other than [burp_repeat] and [burp_request]
    makes exactly one network call, to the store, at an address under the
    base address of the client, and none through the proxy. *)
Theorem store_tools_make_one_store_call :
  forall c log,
    is_burp_request c = false -> is_burp_repeat c = false ->
    exists ev, fst (Run c log) = (log ++ [ev])%list
               /\ store_event_under BASE_URL ev.
Proof. exact store_tool_events. Qed.

(** X18: whatever a tool transmits goes through the local proxy at the
    port given in the call, [http://127.0.0.1:<proxy_port>] for both
    schemes, with certificate verification and redirects switched off;
    only [burp_request] and [burp_repeat] transmit. *)
Theorem transmissions_go_through_the_proxy :
  forall c log rest r,
    fst (Run c log) = (log ++ rest)%list ->
    In (RequestsRequest r) rest ->
    (is_burp_request c = true \/ is_burp_repeat c = true)
    /\ ob_verify r = false
    /\ ob_allow_redirects r = false
    /\ exists port,
         tool_proxy_port c = Some port
         /\ ob_proxies r = [ ("http", "http://127.0.0.1:" ++ Str.of_Z port);
                             ("https", "http://127.0.0.1:" ++ Str.of_Z port) ].
Proof.
  intros c log rest r E I.
  destruct (is_burp_request c) eqn:B1; [|destruct (is_burp_repeat c) eqn:B2].
  - destruct c; try discriminate. simpl run_tool in E.
    unfold burp_request in E. rewrite _safe_fst in E.
    destruct (request_transmits _ _ _ _ _ _ _ _ _ _ _ _ E I) as (_ & _ & ->).
    split; [now left|]. simpl. eauto.
  - destruct c; try discriminate. simpl run_tool in E.
    unfold burp_repeat in E. rewrite _safe_fst in E.
    destruct (repeat_transmits _ _ _ _ _ _ _ _ _ _ _ _ _ E I)
      as (item & rt & p & _ & _ & _ & _ & ->).
    split; [now right|]. simpl. eauto.
  - destruct (store_tool_events c log B1 B2) as (ev & E' & S).
    rewrite E in E'. apply app_inv_head in E'. subst rest.
    destruct I as [Ev|[]]. subst ev. destruct S.
Qed.

Lemma repeat_events_without_library self id spec port max log :
  requests_installed = false ->
  fst (repeat urlopen_get requests_request requests_installed urlencode py_str
              self id spec port max log)
  = (log ++ [UrlopenGet (item_url self id)])%list.
Proof.
  intros H. unfold repeat, bind. rewrite get_untruncated.
  destruct (urlopen_get (item_url self id)) as [item| | | |]; try reflexivity.
  unfold lift.
  destruct (json_get item "request_text" (JStr "")) as [rt|e]; [|reflexivity].
  destruct (truthy rt); simpl; [|reflexivity].
  destruct (prepare py_str item rt id spec) as [p|e]; [|reflexivity].
  unfold request. rewrite H. reflexivity.
Qed.

(** X19: without the [requests] library no tool transmits anything:
    [request] raises [RuntimeError("pip install requests")] before the
    call, and [burp_request] returns that text as an error result. *)
Theorem nothing_transmitted_without_requests_library :
  forall c log,
    requests_installed = false ->
    (forall rest r, fst (Run c log) = (log ++ rest)%list ->
                    ~ In (RequestsRequest r) rest)
    /\ (is_burp_request c = true ->
        Run c log = (log, Return (JObj [("error", JStr "pip install requests")]))).
Proof.
  intros c log H. split.
  - intros rest r E I.
    destruct (is_burp_request c) eqn:B1; [|destruct (is_burp_repeat c) eqn:B2].
    + destruct c; try discriminate. simpl run_tool in E.
      unfold burp_request in E. rewrite _safe_fst in E.
      destruct (request_transmits _ _ _ _ _ _ _ _ _ _ _ _ E I) as (T & _).
      congruence.
    + destruct c; try discriminate. simpl run_tool in E.
      unfold burp_repeat in E.
      rewrite _safe_fst, repeat_events_without_library in E by assumption.
      apply app_inv_head in E. subst rest. destruct I as [D|[]]. discriminate.
    + destruct (store_tool_events c log B1 B2) as (ev & E' & S).
      rewrite E in E'. apply app_inv_head in E'. subst rest.
      destruct I as [Ev|[]]. subst ev. destruct S.
  - intros B. destruct c; try discriminate. simpl run_tool.
    unfold burp_request, _safe, request. rewrite H. reflexivity.
Qed.

(** X20: [burp_get_item] and [burp_repeater_latest] ask for the truncation
    they are given: with [max_body] greater than zero the address carries
    the parameter [max_body], otherwise it carries no parameter and the
    store answers with the full body. *)
Theorem max_body_parameter :
  forall id max log,
    fst (burp_get_item urlopen_get urlencode id max log)
    = (log ++ [UrlopenGet
                 (if (max >? 0)%Z
                  then item_url _client id ++ "?"
                       ++ urlencode [("max_body", Str.of_Z max)]
                  else item_url _client id)])%list
    /\ fst (burp_repeater_latest urlopen_get urlencode max log)
       = (log ++ [UrlopenGet
                    (if (max >? 0)%Z
                     then (base_url _client ++ "/repeater/latest") ++ "?"
                          ++ urlencode [("max_body", Str.of_Z max)]
                     else base_url _client ++ "/repeater/latest")])%list.
Proof.
  intros id max log. unfold burp_get_item, burp_repeater_latest.
  rewrite !_safe_fst. unfold get, repeater_latest. rewrite !_get_events.
  unfold query_url, max_body_param, item_url.
  destruct (max >? 0)%Z; split; reflexivity.
Qed.

(** X21: the query of [burp_search]: [limit] and [offset] are always sent,
    [mcp] exactly when [mcp_only] is set, [fields] and [max_body] never, and
    [ext_exclude] not when it is [None] or the empty string. *)
Theorem burp_search_query :
  forall host method status search search_in tool ext_exclude mime order
         limit offset mcp_only log,
    exists ps,
      fst (burp_search urlopen_get urlencode host method status search
                       search_in tool ext_exclude mime order limit offset
                       mcp_only log)
      = (log ++ [UrlopenGet ((base_url _client ++ "/proxy/history") ++ "?"
                             ++ urlencode ps)])%list
      /\ In ("limit", Str.of_Z limit) ps
      /\ In ("offset", Str.of_Z offset) ps
      /\ (In "mcp" (List.map fst ps) <-> mcp_only = true)
      /\ ~ In "fields" (List.map fst ps)
      /\ ~ In "max_body" (List.map fst ps)
      /\ (ext_exclude = None \/ ext_exclude = Some "" ->
          ~ In "ext_exclude" (List.map fst ps)).
Proof.
  intros. unfold burp_search. rewrite _safe_fst. unfold history.
  rewrite _get_events.
  match goal with
  | |- context [filter_params ?l] => set (params := l)
  end.
  exists (filter_params params).
  assert (L : In ("limit", Str.of_Z limit) (filter_params params)).
  { apply In_filter_params. exists (PInt limit). split; [|reflexivity].
    unfold params. simpl. tauto. }
  assert (K : forall k, In k (List.map fst (filter_params params)) ->
                        exists p v, In (k, p) params
                                    /\ param_filter (k, p) = Some (k, v)).
  { intros k I. apply in_map_iff in I. destruct I as ([k' v] & <- & I).
    apply In_filter_params in I. destruct I as (p & I & F). eauto. }
  split.
  { unfold query_url. destruct (filter_params params); [destruct L|reflexivity]. }
  split; [exact L|]. split.
  { apply In_filter_params. exists (PInt offset). split; [|reflexivity].
    unfold params. simpl. tauto. }
  split; [split|].
  - intros I. destruct (K _ I) as (p & v & Ip & F).
    unfold params in Ip. simpl in Ip.
    repeat (destruct Ip as [Ip|Ip]; [try discriminate Ip|]); [|destruct Ip].
    injection Ip as <-. destruct mcp_only; [reflexivity|discriminate].
  - intros ->. apply in_map_iff. exists ("mcp", "true"). split; [reflexivity|].
    apply In_filter_params. exists (PStr "true"). split; [|reflexivity].
    unfold params. simpl. tauto.
  - split; [|split].
    + intros I. destruct (K _ I) as (p & v & Ip & F).
      unfold params in Ip. simpl in Ip.
      repeat (destruct Ip as [Ip|Ip]; [try discriminate Ip|]); [|destruct Ip].
      injection Ip as <-. discriminate.
    + intros I. destruct (K _ I) as (p & v & Ip & F).
      unfold params in Ip. simpl in Ip.
      repeat (destruct Ip as [Ip|Ip]; [try discriminate Ip|]); [|destruct Ip].
      injection Ip as <-. discriminate.
    + intros He I. destruct (K _ I) as (p & v & Ip & F).
      unfold params in Ip. simpl in Ip.
      repeat (destruct Ip as [Ip|Ip]; [try discriminate Ip|]); [|destruct Ip].
      injection Ip as <-. destruct He as [->| ->]; discriminate.
Qed.

(** X22: [send_to_repeater] without a [history_id] and without a
    [request_b64] (absent or empty) raises [ValueError] before any network
    call; with a [history_id] it posts that identifier, and the tab name
    when there is one, to [/repeater], whatever raw request, host, port and
    scheme it is given besides. *)
Theorem send_to_repeater_inputs :
  (forall self request_b64 host port https tab log,
      request_b64 = None \/ request_b64 = Some "" ->
      send_to_repeater urlopen_post self None request_b64 host port https tab log
      = (log, Raise (ValueError "Provide either history_id or request_b64")))
  /\ (forall self id request_b64 host port https tab log,
         fst (send_to_repeater urlopen_post self (Some id) request_b64 host
                               port https tab log)
         = (log ++ [UrlopenPost
                      (base_url self ++ "/repeater")
                      (JObj (("history_id", JNum id)
                             :: match tab with
                                | Some (String c t) =>
                                    [("tab_name", JStr (String c t))]
                                | _ => []
                                end))])%list).
Proof.
  split.
  - intros self request_b64 host port https tab log [-> | ->]; reflexivity.
  - intros self id request_b64 host port https tab log.
    unfold send_to_repeater, bind, ret. rewrite _post_events.
    destruct tab as [[|c t]|]; reflexivity.
Qed.

(** X23: [burp_hosts] returns the [hosts] field of the answer of the
    store, the empty list when the answer has no such field; an answer
    that is not a dictionary raises [AttributeError], which [_safe] does
    not turn into an error result. *)
Theorem burp_hosts_answer :
  forall v log,
    urlopen_get (base_url _client ++ "/proxy/hosts") = UrlOk v ->
    snd (burp_hosts urlopen_get urlencode log)
    = match v with
      | JObj d => Return (match Dict.get d "hosts" with
                          | Some x => x
                          | None => JArr []
                          end)
      | _ => Raise AttributeError
      end.
Proof.
  intros v log H. unfold burp_hosts, _safe, hosts, bind, _get.
  cbn [filter_params]. rewrite H. unfold lift, json_get.
  destruct v; reflexivity.
Qed.

End MoreTools.

(** ** Runs of the further properties against the sample store and proxy *)

Lemma repeat_events_witness :
  exists rest,
    fst (repeat down_store sample_proxy true no_urlencode no_py_str _client 7
                no_mutation 8080 4000 [])
    = UrlopenGet (item_url _client 7) :: rest
    /\ rest = [].
Proof.
  destruct (repeat_events down_store sample_proxy true no_urlencode no_py_str
              _client 7%Z no_mutation 8080%Z 4000%Z []) as (rest & E & _ & H).
  exists rest. split; [exact E|]. apply H. intros item. discriminate.
Defined.

Lemma store_tools_make_one_store_call_witness :
  exists ev,
    fst (run_tool sample_store sample_post sample_proxy true no_urlencode
                  no_py_str (Call_burp_send_to_repeater 7 (Some "login")) [])
    = [ev]
    /\ store_event_under BASE_URL ev.
Proof.
  exact (store_tools_make_one_store_call sample_store sample_post sample_proxy
           true no_urlencode no_py_str
           (Call_burp_send_to_repeater 7 (Some "login")) [] eq_refl eq_refl).
Defined.

Lemma transmissions_go_through_the_proxy_witness :
  In (RequestsRequest login_call)
     (fst (run_tool sample_store sample_post sample_proxy true no_urlencode
                    no_py_str (Call_burp_repeat 7 no_mutation 8080 4000) []))
  /\ ob_verify login_call = false
  /\ ob_allow_redirects login_call = false
  /\ ob_proxies login_call = [ ("http", "http://127.0.0.1:8080");
                               ("https", "http://127.0.0.1:8080") ].
Proof.
  assert (I : In (RequestsRequest login_call)
                 (fst (run_tool sample_store sample_post sample_proxy true
                                no_urlencode no_py_str
                                (Call_burp_repeat 7 no_mutation 8080 4000) [])))
    by (right; left; reflexivity).
  split; [exact I|].
  destruct (transmissions_go_through_the_proxy sample_store sample_post
              sample_proxy true no_urlencode no_py_str
              (Call_burp_repeat 7 no_mutation 8080 4000) [] _ login_call
              eq_refl I) as (_ & H1 & H2 & port & P & H3).
  injection P as <-.
  split; [assumption|]. split; [assumption|exact H3].
Defined.

Lemma burp_search_query_witness :
  exists ps,
    fst (burp_search sample_store no_urlencode None None None None None None
                     (Some "") None None 20 0 false [])
    = [UrlopenGet ((base_url _client ++ "/proxy/history") ++ "?"
                   ++ no_urlencode ps)]
    /\ ~ In "ext_exclude" (List.map fst ps).
Proof.
  destruct (burp_search_query sample_store no_urlencode None None None None
              None None (Some "") None None 20%Z 0%Z false [])
    as (ps & E & _ & _ & _ & _ & _ & H).
  exists ps. split; [exact E|]. apply H. now right.
Defined.

Lemma send_to_repeater_inputs_witness :
  send_to_repeater sample_post _client None (Some "") (Some "a.test") 443 true
                   None []
  = ([], Raise (ValueError "Provide either history_id or request_b64")).
Proof.
  apply (proj1 (send_to_repeater_inputs sample_post)). now right.
Defined.

Lemma burp_hosts_answer_witness :
  snd (burp_hosts hosts_store no_urlencode []) = Return (JArr [JStr "a.test"]).
Proof.
  exact (burp_hosts_answer hosts_store no_urlencode
           (JObj [("hosts", JArr [JStr "a.test"])]) [] eq_refl).
Defined.

Lemma nothing_transmitted_without_requests_library_witness :
  run_tool sample_store sample_post sample_proxy false no_urlencode no_py_str
           (Call_burp_request "get" "http://a.test/" None None 8080 4000) []
  = ([], Return (JObj [("error", JStr "pip install requests")])).
Proof.
  exact (proj2 (nothing_transmitted_without_requests_library sample_store
                  sample_post sample_proxy false no_urlencode no_py_str
                  (Call_burp_request "get" "http://a.test/" None None 8080 4000)
                  [] eq_refl)
               eq_refl).
Defined.

(** ** Item addresses *)

Lemma sapp_inv_head (a b c : string) : a ++ b = a ++ c -> b = c.
Proof.
  induction a as [|x a IH]; simpl; [trivial|].
  intros E. injection E as E. auto.
Qed.

Lemma of_Z_parses n :
  NilZero.int_of_string (Str.of_Z n) = Some (Z.to_int n).
Proof.
  unfold Str.of_Z. apply NilZero.isi.
  - destruct n; simpl; try discriminate.
    intros E. injection E as E. exact (DecimalPos.Unsigned.to_uint_nonnil _ E).
  - destruct n; simpl; try discriminate.
    intros E. injection E as E. exact (DecimalPos.Unsigned.to_uint_nonnil _ E).
Qed.

(** X24: different item identifiers are fetched at different addresses:
    the decimal of the identifier in the address determines it. *)
Theorem item_url_determines_item :
  forall self id id',
    item_url self id = item_url self id' -> id = id'.
Proof.
  intros self id id' E. unfold item_url in E.
  apply sapp_inv_head, sapp_inv_head in E.
  apply DecimalZ.to_int_inj.
  pose proof (of_Z_parses id) as P. rewrite E, of_Z_parses in P.
  now injection P.
Qed.

Lemma item_url_determines_item_witness : (7 = 3 + 4)%Z.
Proof. exact (item_url_determines_item _client 7%Z (3 + 4)%Z eq_refl). Defined.

(** ** Header lines and the body *)

Lemma partition_concat_no_blank l ls :
  Forall (fun l => free NL l /\ l <> "") (l :: ls) ->
  Str.partition (String.concat Str.LF (l :: ls)) BLANK
  = (String.concat Str.LF (l :: ls), "", "").
Proof.
  revert l. induction ls as [|l2 ls IH]; intros l F.
  - inversion F as [|? ? [Fl _] _]; subst. simpl String.concat.
    rewrite <- (sapp_nil_r l) at 1. rewrite partition_free_app by assumption.
    change (Str.partition "" BLANK) with ("", "", ""). cbn [fst snd].
    now rewrite sapp_nil_r.
  - inversion F as [|? ? [Fl _] F']; subst.
    specialize (IH l2 F').
    inversion F' as [|? ? [Fl2 N2] _]; subst.
    change (String.concat Str.LF (l :: l2 :: ls))
      with (l ++ Str.LF ++ String.concat Str.LF (l2 :: ls)).
    rewrite partition_free_app by assumption.
    rewrite partition_after_break.
    + rewrite IH. reflexivity.
    + destruct l2 as [|x l2]; [contradiction|]. destruct Fl2 as [Nx _].
      destruct ls; [|cbn [String.concat]]; now apply startswith_LF_line
        || (rewrite <- (sapp_nil_r (String x l2)); now apply startswith_LF_line).
Qed.

Lemma free_concat x ls :
  free x Str.LF -> Forall (free x) ls -> free x (String.concat Str.LF ls).
Proof.
  intros FL F. induction F as [|l ls Fl F IH]; [exact I|].
  destruct ls as [|l2 ls]; [exact Fl|].
  change (String.concat Str.LF (l :: l2 :: ls))
    with (l ++ Str.LF ++ String.concat Str.LF (l2 :: ls)).
  rewrite !free_app. auto.
Qed.

(** X25: the last header line of a name decides its value.  In a request
    text of non-empty lines, with no blank line, whose last line is
    [name:value], the parsed headers give the stripped name the stripped
    value, whatever the earlier lines say; the body is empty. *)
Theorem last_header_line_wins :
  forall line0 lines name value,
    Forall (fun l => free NL l /\ free CRc l /\ l <> "") (line0 :: lines) ->
    free COLON name -> free NL name -> free CRc name ->
    free NL value -> free CRc value ->
    exists m pa hs,
      _parse_http_request
        (String.concat Str.LF
           (line0 :: lines ++ [(name ++ ":" ++ value)%string])%list)
      = Return (m, pa, hs, "")
      /\ Dict.get hs (Str.strip name) = Some (Str.strip value).
Proof.
  intros line0 lines name value F Fc Fn Fr Vn Vr.
  set (last := name ++ ":" ++ value).
  assert (Ln : free NL last)
    by (unfold last; rewrite !free_app; simpl; repeat split;
        try assumption; discriminate).
  assert (Lr : free CRc last)
    by (unfold last; rewrite !free_app; simpl; repeat split;
        try assumption; discriminate).
  assert (Le : last <> "") by (unfold last; destruct name; discriminate).
  assert (FA : Forall (fun l => free NL l /\ free CRc l /\ l <> "")
                      (line0 :: lines ++ [last])).
  { change (line0 :: lines ++ [last])%list
      with ((line0 :: lines) ++ [last])%list.
    apply Forall_app. split; [exact F|]. repeat constructor; assumption. }
  unfold _parse_http_request.
  rewrite normalize_id.
  2:{ apply free_concat; [simpl; split; [discriminate|exact I]|].
      eapply Forall_impl; [|exact FA]. intros l (_ & H & _). exact H. }
  change (Str.LF ++ Str.LF) with BLANK.
  rewrite partition_concat_no_blank.
  2:{ eapply Forall_impl; [|exact FA]. intros l (H1 & _ & H2). auto. }
  rewrite split_concat.
  2:{ eapply Forall_impl; [|exact FA]. intros l (H & _). exact H. }
  eexists _, _, _. split; [reflexivity|].
  rewrite fold_left_app. simpl. unfold parse_header_line at 1.
  unfold last. change (name ++ ":" ++ value) with (name ++ String COLON value).
  rewrite split_colon_app by assumption. apply get_set_same.
Qed.

Lemma last_header_line_wins_witness :
  exists m pa hs,
    _parse_http_request
      (String.concat Str.LF
         ("GET / HTTP/1.1" :: ["Accept: text/html"]
          ++ [("Accept" ++ ":" ++ " */* ")%string])%list)
    = Return (m, pa, hs, "")
    /\ Dict.get hs (Str.strip "Accept") = Some (Str.strip " */* ").
Proof.
  apply last_header_line_wins;
    repeat constructor; simpl; repeat split; discriminate.
Defined.

(** X26: the body is what follows the first blank line.  After non-empty
    header lines, each ended by a line break, and a blank line, whatever
    text follows, blank lines included, is the body, stripped. *)
Theorem body_follows_first_blank_line :
  forall line0 lines body,
    Forall (fun l => free NL l /\ free CRc l /\ l <> "") (line0 :: lines) ->
    free CRc body ->
    exists m pa hs,
      _parse_http_request
        (terminated Str.LF (line0 :: lines) ++ Str.LF ++ body)
      = Return (m, pa, hs, Str.strip body).
Proof.
  intros line0 lines body F Fb.
  unfold _parse_http_request.
  rewrite normalize_id.
  2:{ rewrite !free_app. split; [|split; [simpl; split; [discriminate|exact I]
                                          |exact Fb]].
      apply free_terminated; [simpl; split; [discriminate|exact I]|].
      eapply Forall_impl; [|exact F]. intros l (_ & H & _). exact H. }
  change (Str.LF ++ Str.LF) with BLANK.
  rewrite partition_terminated.
  2:{ eapply Forall_impl; [|exact F]. intros l (H1 & _ & H2). auto. }
  rewrite split_concat.
  2:{ eapply Forall_impl; [|exact F]. intros l (H & _). exact H. }
  eexists _, _, _. reflexivity.
Qed.

Lemma body_follows_first_blank_line_witness :
  exists m pa hs,
    _parse_http_request
      (terminated Str.LF ["POST /x HTTP/1.1"; "Host: a.test"] ++ Str.LF
       ++ "a=1" ++ Str.LF ++ Str.LF ++ "b=2" ++ Str.LF)
    = Return (m, pa, hs,
              Str.strip ("a=1" ++ Str.LF ++ Str.LF ++ "b=2" ++ Str.LF)).
Proof.
  apply body_follows_first_blank_line.
  - repeat constructor; simpl; repeat split; discriminate.
  - simpl. repeat split; discriminate.
Defined.

(** ** What escapes [_safe] *)

(** X27: when the store answers the fetch of [burp_repeat] with a value
    that is not a dictionary, the tool raises [AttributeError]: [_safe]
    catches [RuntimeError] only; nothing is transmitted. *)
Theorem burp_repeat_on_malformed_item :
  forall urlopen_get requests_request requests_installed urlencode py_str
         id spec port max log item,
    urlopen_get (item_url _client id) = UrlOk item ->
    (forall d, item <> JObj d) ->
    burp_repeat urlopen_get requests_request requests_installed urlencode
                py_str id spec port max log
    = ((log ++ [UrlopenGet (item_url _client id)])%list, Raise AttributeError).
Proof.
  intros ug rr ri ue ps id spec port max log item G N.
  unfold burp_repeat, _safe, repeat, bind. rewrite get_untruncated, G.
  unfold lift. destruct item; try reflexivity. destruct (N d eq_refl).
Qed.

Lemma burp_repeat_on_malformed_item_witness :
  burp_repeat hosts_list_store sample_proxy true no_urlencode no_py_str
              7 no_mutation 8080 4000 []
  = ([UrlopenGet (item_url _client 7)], Raise AttributeError).
Proof.
  apply (burp_repeat_on_malformed_item hosts_list_store sample_proxy true
           no_urlencode no_py_str 7%Z no_mutation 8080%Z 4000%Z []
           (JArr [JStr "a.test"]) eq_refl).
  intros d. discriminate.
Defined.

(** ** Further properties of the store-facing methods *)

(** X28: the query of [repeater_history] goes to [/repeater/history],
    always carries [limit] and [offset], and carries [host], [method],
    [status], [search], [search_in] and [fields] only when they are given
    and not empty; whatever the store answers is returned as it is. *)
Theorem repeater_history_query :
  forall urlopen_get urlencode self host method status search search_in
         limit offset fields log,
    exists ps,
      fst (repeater_history urlopen_get urlencode self host method status
                            search search_in limit offset fields log)
      = (log ++ [UrlopenGet ((base_url self ++ "/repeater/history") ++ "?"
                             ++ urlencode ps)])%list
      /\ In ("limit", Str.of_Z limit) ps
      /\ In ("offset", Str.of_Z offset) ps
      /\ (forall k, In k (List.map fst ps) ->
                    In k ["host"; "method"; "status"; "search"; "search_in";
                          "limit"; "offset"; "fields"])
      /\ (forall v, In ("host", v) ps <-> host = Some v /\ v <> "")
      /\ (forall v,
            urlopen_get ((base_url self ++ "/repeater/history") ++ "?"
                         ++ urlencode ps) = UrlOk v ->
            snd (repeater_history urlopen_get urlencode self host method status
                                  search search_in limit offset fields log)
            = Return v).
Proof.
  intros. unfold repeater_history.
  match goal with
  | |- context [_get _ _ _ _ ?l] => set (params := l)
  end.
  exists (filter_params params).
  assert (L : In ("limit", Str.of_Z limit) (filter_params params)).
  { apply In_filter_params. exists (PInt limit). split; [|reflexivity].
    unfold params. simpl. tauto. }
  assert (U : query_url urlencode self "/repeater/history" (filter_params params)
              = (base_url self ++ "/repeater/history") ++ "?"
                ++ urlencode (filter_params params)).
  { unfold query_url. destruct (filter_params params); [destruct L|reflexivity]. }
  split; [rewrite _get_events, U; reflexivity|].
  split; [exact L|]. split.
  { apply In_filter_params. exists (PInt offset). split; [|reflexivity].
    unfold params. simpl. tauto. }
  split; [|split].
  - intros k I. apply in_map_iff in I. destruct I as ([k' v] & <- & I).
    apply In_filter_params in I. destruct I as (p & I & _).
    unfold params in I. simpl in I.
    repeat (destruct I as [I|I]; [injection I as <- _; simpl; tauto|]).
    destruct I.
  - intros v. rewrite In_filter_params. split.
    + intros (p & I & F). unfold params in I. simpl in I.
      repeat (destruct I as [I|I]; [try discriminate I|]); [|destruct I].
      injection I as <-. destruct host as [h|]; [|discriminate].
      unfold param_filter in F. simpl in F.
      destruct (String.eqb_spec h "") as [E|N]; [discriminate|].
      injection F as <-. auto.
    + intros [-> N]. exists (PStr v). split; [unfold params; simpl; tauto|].
      unfold param_filter. simpl.
      destruct (String.eqb_spec v ""); [contradiction|reflexivity].
  - intros v G. unfold _get. fold params.
    destruct (filter_params params) as [|x f] eqn:F; [destruct L|].
    cbv beta iota zeta. rewrite G. reflexivity.
Qed.

Lemma repeater_history_query_witness :
  exists ps,
    fst (repeater_history (constant_store (JArr [])) no_urlencode _client
                          (Some "a.test") None None None None 100 0 None [])
    = [UrlopenGet ((base_url _client ++ "/repeater/history") ++ "?"
                   ++ no_urlencode ps)]
    /\ In ("host", "a.test") ps
    /\ snd (repeater_history (constant_store (JArr [])) no_urlencode _client
                             (Some "a.test") None None None None 100 0 None [])
       = Return (JArr []).
Proof.
  destruct (repeater_history_query (constant_store (JArr [])) no_urlencode
              _client (Some "a.test") None None None None 100%Z 0%Z None [])
    as (ps & E & _ & _ & _ & H & R).
  exists ps. split; [exact E|]. split.
  - apply H. split; [reflexivity|discriminate].
  - apply R. reflexivity.
Defined.



(** ** C4: well-formed texts through [_parse_http_request] and [build] *)

Lemma padding_space s : padding s -> Str.lstrip s = "".
Proof.
  induction s as [|c s IH]; [reflexivity|].
  intros [[->| ->] P]; simpl; auto.
Qed.

Lemma padding_free s : padding s -> free NL s /\ free CRc s.
Proof.
  induction s as [|c s IH]; [simpl; auto|].
  intros [[->| ->] P]; destruct (IH P); simpl; repeat split; auto; discriminate.
Qed.

Lemma lstrip_padding p s : padding p -> Str.lstrip (p ++ s) = Str.lstrip s.
Proof.
  induction p as [|c p IH]; [reflexivity|].
  intros [[->| ->] P]; simpl; auto.
Qed.

Lemma rstrip_padding s : padding s -> Str.rstrip s = "".
Proof.
  induction s as [|c s IH]; [reflexivity|].
  intros [[->| ->] P]; simpl; rewrite (IH P); reflexivity.
Qed.

Lemma rstrip_app_padding v p : padding p -> Str.rstrip (v ++ p) = Str.rstrip v.
Proof.
  intros P. induction v as [|c v IH].
  - simpl. now apply rstrip_padding.
  - cbn [append Str.rstrip]. now rewrite IH.
Qed.

Lemma strip_rstrip v : Str.strip v = v -> Str.rstrip v = v.
Proof.
  intros S. pose proof (strip_no_leading v) as L. rewrite S in L.
  unfold Str.strip in S. now rewrite (lstrip_id _ L) in S.
Qed.

(** The value between its paddings. *)
Lemma strip_padded p v q :
  padding p -> padding q -> Str.strip v = v -> Str.strip (p ++ v ++ q) = v.
Proof.
  intros P Q S. unfold Str.strip. rewrite lstrip_padding by assumption.
  pose proof (strip_no_leading v) as L. rewrite S in L.
  destruct v as [|c v].
  - simpl. rewrite (padding_space _ Q). reflexivity.
  - rewrite lstrip_id by exact L.
    rewrite rstrip_app_padding by assumption. now apply strip_rstrip.
Qed.

Lemma parse_header_line_written acc h :
  well_formed_header h ->
  parse_header_line acc (header_text_line h)
  = Dict.set acc (h_name h) (h_value h).
Proof.
  intros [[(Fc & _ & _ & Sk) (_ & _ & Sv)] [P Q]]. simpl in *.
  unfold parse_header_line, header_text_line.
  change (h_name h ++ ":" ++ h_lead h ++ h_value h ++ h_trail h)
    with (h_name h ++ String COLON (h_lead h ++ h_value h ++ h_trail h)).
  rewrite split_colon_app by assumption.
  now rewrite strip_padded, Sk.
Qed.

(** Parsing the header lines of a well-formed text assigns the values to
    the names, line by line. *)
Lemma parse_headers_written hs acc :
  Forall well_formed_header hs ->
  fold_left parse_header_line (List.map header_text_line hs) acc
  = Dict.update acc (List.map (fun h => (h_name h, h_value h)) hs).
Proof.
  revert acc. induction hs as [|h hs IH]; intros acc F; [reflexivity|].
  inversion F as [|? ? W F']; subst. simpl.
  rewrite parse_header_line_written by assumption.
  rewrite IH by assumption. reflexivity.
Qed.

Lemma update_distinct (acc l : Dict.t string) :
  NoDup (Dict.keys (acc ++ l)%list) -> Dict.update acc l = (acc ++ l)%list.
Proof.
  revert acc. induction l as [|[k v] l IH]; intros acc ND.
  - simpl. now rewrite app_nil_r.
  - unfold Dict.update. simpl.
    assert (N : ~ In k (Dict.keys acc)).
    { unfold Dict.keys in *. rewrite map_app in ND. simpl in ND.
      apply NoDup_remove_2 in ND. intros I. apply ND, in_or_app. auto. }
    rewrite set_absent by assumption.
    change (fold_left (fun acc0 kv => Dict.set acc0 (fst kv) (snd kv)) l
              (acc ++ [(k, v)])%list)
      with (Dict.update (acc ++ [(k, v)])%list l).
    rewrite IH; [now rewrite <- app_assoc|]. now rewrite <- app_assoc.
Qed.

Lemma free_header_text_line h :
  well_formed_header h ->
  free NL (header_text_line h) /\ free CRc (header_text_line h).
Proof.
  intros [[(_ & Nk & Ck & _) (Nv & Cv & _)] [P Q]]. simpl in *.
  destruct (padding_free _ P), (padding_free _ Q).
  unfold header_text_line. rewrite !free_app. simpl.
  repeat split; auto; discriminate.
Qed.

Lemma free_request_text_line t :
  well_formed t ->
  free NL (request_text_line t) /\ free CRc (request_text_line t).
Proof.
  intros ((_ & (_ & Nm & Cm) & _) & (_ & Np & Cp) & (_ & Nv & Cv & _) & _).
  unfold request_text_line. rewrite !free_app. simpl.
  repeat split; auto; discriminate.
Qed.

Lemma request_text_line_strip t :
  well_formed t -> Str.strip (request_text_line t) = request_text_line t.
Proof.
  intros ((Nm & _ & Lm) & _ & (Nv & _ & _ & Rv) & _).
  unfold Str.strip, request_text_line.
  rewrite lstrip_id.
  - rewrite <- !sapp_assoc. now apply rstrip_app_id.
  - destruct (t_method t); [contradiction|exact Lm].
Qed.

Lemma request_text_line_split t :
  well_formed t ->
  Str.split SPACE (request_text_line t)
  = t_method t :: t_path t :: Str.split SPACE (t_version t).
Proof.
  intros ((_ & (Sm & _) & _) & (Sp & _) & _).
  unfold request_text_line.
  change (t_method t ++ " " ++ t_path t ++ " " ++ t_version t)
    with (t_method t ++ String SPACE (t_path t ++ String SPACE (t_version t))).
  now rewrite !split_app by assumption.
Qed.

(** After the line ends are normalized, a well-formed text is its writing
    with line breaks. *)
Lemma normalize_raw_text eol t :
  eol = Str.LF \/ eol = Str.CRLF -> well_formed t ->
  normalize_newlines (raw_text eol t) = raw_text Str.LF t.
Proof.
  intros E W.
  assert (LC : Forall (free CRc)
                 (request_text_line t :: List.map header_text_line (t_headers t))).
  { constructor; [apply (free_request_text_line t W)|].
    destruct W as (_ & _ & _ & F & _).
    induction F as [|h hs Wh F IH]; simpl; constructor; [|exact IH].
    apply (free_header_text_line h Wh). }
  assert (Cb : free CRc (t_body t)) by apply W.
  destruct E as [-> | ->].
  - apply normalize_id. unfold raw_text. rewrite !free_app.
    repeat split; try assumption; try discriminate.
    apply free_terminated; [simpl; split; [discriminate|exact I]|assumption].
  - unfold raw_text. now apply normalize_terminated.
Qed.

(** What [_parse_http_request] reads in a well-formed text: the method and
    the path of its request line, for every header name the value of its
    last line, at the place of its first line, and the body without
    surrounding white space. *)
Lemma parse_raw_text eol t :
  eol = Str.LF \/ eol = Str.CRLF -> well_formed t ->
  _parse_http_request (raw_text eol t)
  = Return (t_method t, t_path t,
            Dict.update [] (List.map (fun h => (h_name h, h_value h)) (t_headers t)),
            Str.strip (t_body t)).
Proof.
  intros E W.
  assert (LN : Forall (free NL)
                 (request_text_line t :: List.map header_text_line (t_headers t))).
  { constructor; [apply (free_request_text_line t W)|].
    destruct W as (_ & _ & _ & F & _).
    induction F as [|h hs Wh F IH]; simpl; constructor; [|exact IH].
    apply (free_header_text_line h Wh). }
  assert (LE : Forall (fun l => free NL l /\ l <> "")
                 (request_text_line t :: List.map header_text_line (t_headers t))).
  { inversion LN as [|? ? L0 LN']; subst. constructor.
    - split; [assumption|]. unfold request_text_line.
      destruct W as ((Nm & _) & _). destruct (t_method t); [contradiction|discriminate].
    - clear - LN'. induction (t_headers t) as [|h hs IH]; simpl in *; constructor.
      + inversion LN'; subst. split; [assumption|].
        unfold header_text_line. destruct (h_name h); discriminate.
      + inversion LN'; subst. auto. }
  unfold _parse_http_request.
  rewrite (normalize_raw_text eol t E W). unfold raw_text.
  change (Str.LF ++ Str.LF) with BLANK.
  rewrite partition_terminated by assumption.
  rewrite split_concat by assumption.
  rewrite request_text_line_strip by assumption.
  rewrite request_text_line_split by assumption.
  rewrite parse_headers_written by apply W.
  reflexivity.
Qed.

Lemma build_said t : build (said t) = raw_text Str.CRLF (canonical t).
Proof.
  unfold build, said, raw_text, canonical. cbn [t_method t_path t_version t_headers t_body].
  f_equal. cbn [terminated]. f_equal. f_equal.
  induction (t_headers t) as [|h hs IH]; [reflexivity|].
  cbn [List.map terminated]. rewrite IH. f_equal.
  unfold header_line, header_text_line, canonical_header. simpl.
  now rewrite sapp_nil_r.
Qed.

Lemma well_formed_canonical t : well_formed t -> well_formed (canonical t).
Proof.
  intros (Wm & Wp & Wv & Wh & Wb). unfold well_formed, canonical; simpl.
  split; [exact Wm|]. split; [exact Wp|]. split.
  { repeat split; discriminate. }
  split.
  - induction Wh as [|h hs [G _] F IH]; simpl; constructor; [|exact IH].
    split; [exact G|]. simpl. auto.
  - now apply free_strip.
Qed.

Lemma said_canonical t : said (canonical t) = said t.
Proof.
  unfold said, canonical; simpl. rewrite map_map. simpl. now rewrite strip_idem.
Qed.

(** C4, amended: for every well-formed request text whose header names are
    pairwise different, with line ends LF or CRLF, [_parse_http_request]
    returns what the text says: its method, its path, its header names and
    values in their order, and its body without surrounding white space;
    and [build] writes for it the text of a well-formed request that says
    the same: only the padding of the header values, the line ends, the
    version and the white space around the body differ. *)
Theorem C4_round_trip_distinct_names :
  forall eol t,
    eol = Str.LF \/ eol = Str.CRLF ->
    well_formed t ->
    NoDup (List.map h_name (t_headers t)) ->
    _parse_http_request (raw_text eol t) = Return (said t)
    /\ build (said t) = raw_text Str.CRLF (canonical t)
    /\ well_formed (canonical t)
    /\ said (canonical t) = said t.
Proof.
  intros eol t E W ND. split; [|split; [|split]].
  - rewrite parse_raw_text by assumption. unfold said.
    rewrite update_distinct; [reflexivity|].
    simpl. unfold Dict.keys. now rewrite map_map.
  - apply build_said.
  - now apply well_formed_canonical.
  - apply said_canonical.
Qed.

Lemma well_formed_two_accepts : well_formed two_accepts.
Proof.
  unfold well_formed, two_accepts, good_token, no_leading_space; simpl.
  repeat split; try discriminate.
  repeat constructor; simpl; try discriminate.
Qed.

(** C4, as stated, fails: a well-formed text with two [Accept] lines says
    two values; [_parse_http_request] keeps the second one only, and what
    [build] writes has one [Accept] line. *)
Lemma C4_repeated_name_is_lost :
  well_formed two_accepts
  /\ said two_accepts
     = ("GET", "/",
        [("Accept", "text/html"); ("Accept", "application/json")], "")
  /\ _parse_http_request (raw_text Str.LF two_accepts)
     = Return ("GET", "/", [("Accept", "application/json")], "")
  /\ _parse_http_request (raw_text Str.LF two_accepts)
     <> Return (said two_accepts)
  /\ build ("GET", "/", [("Accept", "application/json")], "")
     = terminated Str.CRLF ["GET / HTTP/1.1"; "Accept: application/json"]
       ++ Str.CRLF.
Proof.
  split; [exact well_formed_two_accepts|].
  split; [reflexivity|]. split; [reflexivity|]. split; [|reflexivity].
  discriminate.
Qed.

(** The line ends of the body are rewritten with those of the header
    block: a body holding a carriage return is not read as it is written. *)
Example body_line_ends_rewritten :
  _parse_http_request
    (raw_text Str.CRLF
       {| t_method := "POST"; t_path := "/"; t_version := "HTTP/1.1";
          t_headers := []; t_body := "a" ++ Str.CRLF ++ "b" |})
  = Return ("POST", "/", [], "a" ++ Str.LF ++ "b").
Proof. reflexivity. Qed.

Lemma well_formed_padded_login : well_formed padded_login.
Proof.
  unfold well_formed, padded_login, good_token, no_leading_space; simpl.
  repeat split; try discriminate.
  repeat constructor; simpl; auto; try discriminate.
Qed.

Lemma C4_round_trip_distinct_names_witness :
  _parse_http_request (raw_text Str.CRLF padded_login)
  = Return ("POST", "/login",
            [ ("Host", "a.test");
              ("Content-Type", "text/plain; charset=utf-8") ],
            "user=bob")
  /\ build ("POST", "/login",
            [ ("Host", "a.test");
              ("Content-Type", "text/plain; charset=utf-8") ],
            "user=bob")
     = raw_text Str.CRLF (canonical padded_login).
Proof.
  assert (ND : NoDup (List.map h_name (t_headers padded_login))).
  { simpl. repeat constructor; simpl; intuition discriminate. }
  destruct (C4_round_trip_distinct_names Str.CRLF padded_login
              (or_intror eq_refl) well_formed_padded_login ND)
    as (P & B & _).
  split; [exact P|exact B].
Defined.
